(** * koa-bouncer: the Validator chain, its optional guard and the session cache

    A shallow embedding of [src/index.js].  JavaScript values are an inductive
    type, numbers are IEEE binary64 values ([spec_float] with 53 bits of
    precision), the [vals] object of a session is a finite map from names to
    values, and every method of [Validator] is a computation in a state and
    exception monad: a method either returns (with the state it leaves
    behind) or throws (again with the state it leaves behind, since writes
    made before a [throw] stay in the shared object). *)

From Stdlib Require Import ZArith Bool List Ascii String DecimalString.
From Stdlib Require Import Floats.SpecFloat.
From stdpp Require Import base option strings list gmap relations.

Local Open Scope string_scope.
Local Open Scope Z_scope.

(** ** Numbers *)

Definition number : Type := spec_float.

Definition prec : Z := 53.
Definition emax : Z := 1024.

(** The number nearest to an integer (round to nearest, ties to even), as
    numeric literals and [parseInt] produce it.  [neg] is the sign given to
    a zero result. *)
Definition number_of_signed_Z (neg : bool) (z : Z) : number :=
  binary_normalize prec emax z 0 neg.

Definition number_of_Z (z : Z) : number := number_of_signed_Z false z.

Definition NaN : number := S754_nan.

(** [a <= b] and [a < b] on numbers: false as soon as one side is [NaN]. *)
Definition num_le (a b : number) : bool := SFleb a b.
Definition num_lt (a b : number) : bool := SFltb a b.
Definition num_eq (a b : number) : bool := SFeqb a b.

Definition MAX_SAFE_INTEGER : number := number_of_Z (2 ^ 53 - 1).
Definition MIN_SAFE_INTEGER : number := number_of_Z (- (2 ^ 53 - 1)).

(** [isSafeInteger], as exported by the module. *)
Definition isSafeInteger (n : number) : bool :=
  num_le MIN_SAFE_INTEGER n && num_le n MAX_SAFE_INTEGER.

(** ** Values

    [VObject o] is a reference to an object that is neither an array nor a
    function and that prints as the default ["[object Object]"]: a parsed
    JSON object, or a [Validator] instance handed around as a value (the
    source does so once, in [isAlphanumeric]).  Functions are not values of
    the store; where a method takes one, its argument has type [arg]
    below.  Strings are sequences of code units below 256. *)
#[warnings="-register-all"]
Inductive value : Type :=
| VUndefined
| VNull
| VBool (b : bool)
| VNumber (n : number)
| VString (s : string)
| VArray (items : list value)
| VObject (o : nat).

Definition _isUndefined (x : value) : bool :=
  match x with VUndefined => true | _ => false end.

Definition _isString (x : value) : bool :=
  match x with VString _ => true | _ => false end.

Definition _isNumber (x : value) : bool :=
  match x with VNumber _ => true | _ => false end.

Definition _isArray (x : value) : bool :=
  match x with VArray _ => true | _ => false end.

(** ToBoolean: what [!x], [if (x)] and [x || y] look at. *)
Definition truthy (x : value) : bool :=
  match x with
  | VUndefined | VNull => false
  | VBool b => b
  | VNumber (S754_zero _) | VNumber S754_nan => false
  | VNumber _ => true
  | VString s => negb (String.eqb s "")
  | VArray _ | VObject _ => true
  end.

(** [a || b] *)
Definition js_or (a b : value) : value := if truthy a then a else b.

(** [x === n] for a number [n], [x === t] for a string [t]. *)
Definition strict_eq_number (x : value) (n : number) : bool :=
  match x with VNumber a => num_eq a n | _ => false end.

Definition strict_eq_string (x : value) (t : string) : bool :=
  match x with VString s => String.eqb s t | _ => false end.

(** [_.contains(arr, x)] for an array of string literals. *)
Definition _contains (arr : list string) (x : value) : bool :=
  existsb (strict_eq_string x) arr.

(** The index [i] of an array, as a value. *)
Definition index (i : nat) : value := VNumber (number_of_Z (Z.of_nat i)).

(** [_.every(array, predicate)]: the predicate is called with each item
    and its index. *)
Fixpoint every_from {A} (i : nat) (items : list A)
    (predicate : A -> value -> bool) : bool :=
  match items with
  | [] => true
  | x :: rest => predicate x (index i) && every_from (S i) rest predicate
  end.

Definition _every {A} (items : list A) (predicate : A -> value -> bool) : bool :=
  every_from 0 items predicate.

(** ** Characters and the regular expressions of the source *)

Definition code (c : ascii) : N := N_of_ascii c.

Definition in_range (lo hi : N) (c : ascii) : bool :=
  (lo <=? code c)%N && (code c <=? hi)%N.

Definition is_char (d : ascii) (c : ascii) : bool := (code c =? code d)%N.

(** [[0-9]], [[a-z]] under the [i] flag, [[a-z0-9]] under the [i] flag,
    [[\x00-\x7F]], [[0-9A-F]] and [[89AB]] under the [i] flag. *)
Definition is_digit (c : ascii) : bool := in_range 48 57 c.
Definition is_alpha (c : ascii) : bool := in_range 97 122 c || in_range 65 90 c.
Definition is_alnum (c : ascii) : bool := is_alpha c || is_digit c.
Definition is_ascii (c : ascii) : bool := in_range 0 127 c.
Definition is_hex (c : ascii) : bool :=
  is_digit c || in_range 65 70 c || in_range 97 102 c.
Definition is_89AB (c : ascii) : bool :=
  in_range 56 57 c || in_range 65 66 c || in_range 97 98 c.

(** [/^[cls]*$/]: every code unit is in the class. *)
Fixpoint all_chars (cls : ascii -> bool) (s : string) : bool :=
  match s with
  | EmptyString => true
  | String c s' => cls c && all_chars cls s'
  end.

(** A pattern [/^c1 c2 ... cn$/] of single-character classes: the string
    has exactly [n] code units, the i-th in the i-th class. *)
Definition pattern : Type := list (ascii -> bool).

Fixpoint matches (p : pattern) (s : string) : bool :=
  match p, s with
  | [], EmptyString => true
  | cls :: p', String c s' => cls c && matches p' s'
  | _, _ => false
  end.

Definition hex (n : nat) : pattern := repeat is_hex n.
Definition dash : pattern := [is_char "-"].

(** The four patterns of [isUuid]. *)
Definition re_v3 : pattern :=
  (hex 8 ++ dash ++ hex 4 ++ dash ++ [is_char "3"] ++ hex 3 ++ dash
    ++ hex 4 ++ dash ++ hex 12)%list.
Definition re_v4 : pattern :=
  (hex 8 ++ dash ++ hex 4 ++ dash ++ [is_char "4"] ++ hex 3 ++ dash
    ++ [is_89AB] ++ hex 3 ++ dash ++ hex 12)%list.
Definition re_v5 : pattern :=
  (hex 8 ++ dash ++ hex 4 ++ dash ++ [is_char "5"] ++ hex 3 ++ dash
    ++ [is_89AB] ++ hex 3 ++ dash ++ hex 12)%list.
Definition re_all : pattern :=
  (hex 8 ++ dash ++ hex 4 ++ dash ++ hex 4 ++ dash ++ hex 4 ++ dash ++ hex 12)%list.

(** The object [re] of [isUuid], read at a property name. *)
Definition re (name : string) : option pattern :=
  if String.eqb name "v3" then Some re_v3
  else if String.eqb name "v4" then Some re_v4
  else if String.eqb name "v5" then Some re_v5
  else if String.eqb name "all" then Some re_all
  else None.

(** ** parseInt with radix 10, on a string

    Leading white space is skipped, a sign is read, then the longest run
    of decimal digits; the result is the number nearest to the integer
    read (the language lets an implementation round less exactly past the
    twentieth digit; the nearest number is taken here), [NaN] when there
    is no digit. *)

Definition is_white_space (c : ascii) : bool :=
  in_range 9 13 c || is_char " " c || (code c =? 160)%N.

Fixpoint skip_white_space (s : string) : string :=
  match s with
  | String c s' => if is_white_space c then skip_white_space s' else s
  | EmptyString => s
  end.

(** The value of the longest prefix of decimal digits, [None] when the
    prefix is empty; [acc] is the value read so far. *)
Fixpoint digits_prefix (acc : option Z) (s : string) : option Z :=
  match s with
  | String c s' =>
      if is_digit c
      then digits_prefix (Some (10 * default 0 acc + (Z.of_N (code c) - 48))) s'
      else acc
  | EmptyString => acc
  end.

Definition parseInt_string (s : string) : number :=
  let s := skip_white_space s in
  let '(neg, s) :=
    match s with
    | String c s' =>
        if is_char "-" c then (true, s')
        else if is_char "+" c then (false, s')
        else (false, s)
    | EmptyString => (false, s)
    end in
  match digits_prefix None s with
  | None => NaN
  | Some z => number_of_signed_Z neg (if neg then - z else z)
  end.

(** ** What the module takes from outside

    The checks of the [validator] package ([v] in the source) and the
    number-to-string conversion of the language are not code of this
    module; the development is stated for any of them.  [v.isInt] has a
    second parameter, its options: [toInt] leaves it out, and in [toInts]
    it receives what [_.every] passes after the item, the index. *)
Class NumberToString : Type := Number_toString : number -> string.

Class ValidatorPackage : Type := {
  v_isInt : value -> value -> bool;
  v_isBase64 : value -> bool;
  v_isEmail : value -> bool;
  v_isHexColor : value -> bool
}.

Section Conversions.

Context `{NumberToString}.

(** ToString on the values above.  In an array, [undefined] and [null]
    print as the empty string and the items are joined with commas. *)
Fixpoint ToString (x : value) : string :=
  match x with
  | VUndefined => "undefined"
  | VNull => "null"
  | VBool true => "true"
  | VBool false => "false"
  | VNumber n => Number_toString n
  | VString s => s
  | VArray items =>
      let item y :=
        match y with
        | VUndefined | VNull => ""
        | _ => ToString y
        end in
      (fix join (l : list value) : string :=
         match l with
         | [] => ""
         | [y] => item y
         | y :: l' => item y +:+ "," +:+ join l'
         end) items
  | VObject _ => "[object Object]"
  end.

(** [parseInt(x, 10)] *)
Definition parseInt (x : value) : number := parseInt_string (ToString x).

(** [r.test(x)] for the two shapes of regular expression in the source. *)
Definition test_all (cls : ascii -> bool) (x : value) : bool :=
  all_chars cls (ToString x).

Definition test (p : pattern) (x : value) : bool := matches p (ToString x).

End Conversions.

(** ** Errors *)

(** The [bouncer] object of a [ValidationError]. *)
Record Bouncer : Type := mkBouncer {
  bouncer_key : value;
  bouncer_message : value
}.

(** An instance of [ValidationError].  [key] is a name, or [null] for the
    session-level assertions; [message] is whatever value was passed. *)
Record ValidationErrorObj : Type := mkValidationError {
  err_name : string;
  err_message : value;
  err_bouncer : Bouncer
}.

Definition ValidationError (key message : value) : ValidationErrorObj :=
  {| err_name := "ValidationError";
     err_message := message;
     err_bouncer := {| bouncer_key := key; bouncer_message := message |} |}.

(** What a [throw] can carry.  [EValidation] are the instances of
    [ValidationError]; [EAssertion] is the [AssertionError] of
    [better-assert]; [ETypeError] is the language's own; [EOther] is
    anything else a callback throws. *)
Inductive fault : Type :=
| EValidation (e : ValidationErrorObj)
| EAssertion
| ETypeError
| EOther (payload : value).

Definition instanceof_ValidationError (ex : fault) : bool :=
  match ex with EValidation _ => true | _ => false end.

(** ** The state and exception monad *)

Inductive result (St A : Type) : Type :=
| Return (a : A) (s : St)
| Throw (ex : fault) (s : St).
Arguments Return {St A} a s.
Arguments Throw {St A} ex s.

Definition state_of {St A} (r : result St A) : St :=
  match r with Return _ s | Throw _ s => s end.

Definition Eff (St A : Type) : Type := St -> result St A.

#[export] Instance Eff_ret {St} : MRet (Eff St) := fun A a s => Return a s.

#[export] Instance Eff_bind {St} : MBind (Eff St) := fun A B k m s =>
  match m s with
  | Return a s' => k a s'
  | Throw ex s' => Throw ex s'
  end.

Definition throw {St A} (ex : fault) : Eff St A := fun s => Throw ex s.

(** [try { m } catch (ex) { h ex }] *)
Definition try_catch {St A} (m : Eff St A) (h : fault -> Eff St A) : Eff St A :=
  fun s =>
    match m s with
    | Return a s' => Return a s'
    | Throw ex s' => h ex s'
    end.

Definition gets {St A} (f : St -> A) : Eff St A := fun s => Return (f s) s.
Definition modify {St} (f : St -> St) : Eff St unit := fun s => Return tt (f s).

(** [assert(expr)] of [better-assert]. *)
Definition assert {St} (expr : bool) : Eff St unit :=
  if expr then mret tt else throw EAssertion.

(** [if (c) body] where [body] is a statement. *)
Definition when {St} (c : bool) (body : Eff St unit) : Eff St unit :=
  if c then body else mret tt.

(** ** Validator *)

(** The fields of a [Validator] instance that are its own.  [oid] is the
    identity of the object; [ctx] and [vals] are references to the session
    and to its store, which the state below holds. *)
Record Validator : Type := mkValidator {
  oid : nat;
  key : string;
  type : option string;
  _isOptional : bool
}.

(** What a method call can read and write: the instance it is called on
    and the store [this.vals] points to. *)
Record state : Type := mkState {
  this : Validator;
  vals : gmap string value
}.

Abbreviation M := (Eff state).

Section Methods.

Context `{NumberToString} `{ValidatorPackage}.

(** A property read [obj[k]] on an object used as a map. *)
Definition get (obj : gmap string value) (k : string) : value :=
  default VUndefined (obj !! k).

(** [this.val()] *)
Definition val (s : state) : value := get (vals s) (key (this s)).

Definition set_isOptional (b : bool) (s : state) : state :=
  {| this := {| oid := oid (this s); key := key (this s);
                type := type (this s); _isOptional := b |};
     vals := vals s |}.

(** [this.vals[this.key] = x] *)
Definition set_val (x : value) (s : state) : state :=
  {| this := this s; vals := <[key (this s) := x]> (vals s) |}.

Definition get_val : M value := gets val.
Definition get_key : M string := gets (fun s : state => key (this s)).
Definition get_isOptional : M bool := gets (fun s : state => _isOptional (this s)).

(** [this], as the value a method returns. *)
Definition this_value (s : state) : value := VObject (oid (this s)).

Definition return_this : M value := gets this_value.

(** [this.throwError(tip)] *)
Definition throwError {A} (tip : value) : M A := fun s =>
  Throw (EValidation
           (ValidationError (VString (key (this s)))
              (js_or tip (VString ("Invalid value for " +:+ key (this s))))))
        s.

(** [this.isOptional()] *)
Definition isOptional : M bool :=
  o ← get_isOptional; x ← get_val;
  when (o && negb (_isUndefined x)) (modify (set_isOptional false));;
  get_isOptional.

(** [optionalFn(fn)], with [fn] already applied to its arguments. *)
Definition optionalFn (fn : M value) : M value :=
  o ← isOptional;
  if (o : bool) then return_this else fn.

(** A method as the prototype holds it, and [Validator.addMethod(name, fn)]
    on a prototype. *)
Definition method (Args : Type) : Type := Args -> M value.

Definition addMethod {Args} (name : string) (fn : method Args)
    (prototype : gmap string (method Args)) : gmap string (method Args) :=
  <[name := fun arguments => optionalFn (fn arguments)]> prototype.

(** An argument that may be a function: [AFun f] is a function that, called
    with the session as [this] and the given arguments, runs [f]. *)
Inductive arg : Type :=
| AVal (x : value)
| AFun (f : list value -> M value).

Definition _isFunction (a : arg) : bool :=
  match a with AFun _ => true | AVal _ => false end.

(** *** Built-in methods *)

Definition required (tip : value) : M value :=
  x ← get_val; k ← get_key;
  when (_isUndefined x)
       (throwError (js_or tip (VString (k +:+ " must not be empty"))));;
  return_this.

Definition optional : M value :=
  x ← get_val;
  when (_isUndefined x) (modify (set_isOptional true));;
  return_this.

(** [x.length]: a [TypeError] on [undefined] and [null], the number of
    code units of a string, the number of items of an array, and
    [undefined] on the other values, which have no such property. *)
Definition length_of (x : value) : M value :=
  match x with
  | VUndefined | VNull => throw ETypeError
  | VString s => mret (VNumber (number_of_Z (Z.of_nat (String.length s))))
  | VArray items => mret (VNumber (number_of_Z (Z.of_nat (List.length items))))
  | _ => mret VUndefined
  end.

(** The two comparisons of the source that follow an assertion that both
    sides are numbers. *)
Definition js_le (x y : value) : bool :=
  match x, y with VNumber a, VNumber b => num_le a b | _, _ => false end.

Definition js_lt (x y : value) : bool :=
  match x, y with VNumber a, VNumber b => num_lt a b | _, _ => false end.


Definition gt_fn (otherValue tip : value) : M value :=
  x ← get_val; assert (_isNumber x);;
  assert (_isNumber otherValue);;
  x ← get_val; k ← get_key;
  when (js_le x otherValue)
       (throwError (js_or tip (VString ("Invalid " +:+ k))));;
  return_this.
Definition gt (otherValue tip : value) : M value :=
  optionalFn (gt_fn otherValue tip).

Definition gte_fn (otherValue tip : value) : M value :=
  x ← get_val; assert (_isNumber x);;
  assert (_isNumber otherValue);;
  x ← get_val; k ← get_key;
  when (js_lt x otherValue)
       (throwError (js_or tip (VString ("Invalid " +:+ k))));;
  return_this.
Definition gte (otherValue tip : value) : M value :=
  optionalFn (gte_fn otherValue tip).

Definition lt_fn (otherValue tip : value) : M value :=
  x ← get_val; assert (_isNumber x);;
  assert (_isNumber otherValue);;
  x ← get_val; k ← get_key;
  when (js_le otherValue x)
       (throwError (js_or tip (VString ("Invalid " +:+ k))));;
  return_this.
Definition lt (otherValue tip : value) : M value :=
  optionalFn (lt_fn otherValue tip).

Definition lte_fn (otherValue tip : value) : M value :=
  x ← get_val; assert (_isNumber x);;
  assert (_isNumber otherValue);;
  x ← get_val; k ← get_key;
  when (js_lt otherValue x)
       (throwError (js_or tip (VString ("Invalid " +:+ k))));;
  return_this.
Definition lte (otherValue tip : value) : M value :=
  optionalFn (lte_fn otherValue tip).

Definition defaultTo_fn (valueOrFunction : arg) : M value :=
  x ← get_val;
  x' ← (if _isUndefined x
        then match valueOrFunction with
             | AFun f => f []
             | AVal d => mret d
             end
        else mret x);
  modify (set_val x');;
  return_this.
Definition defaultTo (valueOrFunction : arg) : M value :=
  optionalFn (defaultTo_fn valueOrFunction).

Definition isString_fn (tip : value) : M value :=
  x ← get_val; k ← get_key;
  when (negb (_isString x))
       (throwError (js_or tip (VString (k +:+ " must be a string"))));;
  return_this.
Definition isString (tip : value) : M value := optionalFn (isString_fn tip).

Definition toInt_fn (tip : value) : M value :=
  x ← get_val; k ← get_key;
  when (negb (v_isInt x VUndefined))
       (throwError (js_or tip (VString (k +:+ " must be an integer"))));;
  x ← get_val;
  let num := parseInt x in
  k ← get_key;
  when (negb (isSafeInteger num))
       (throwError (js_or tip (VString (k +:+ " is out of integer range"))));;
  modify (set_val (VNumber num));;
  return_this.
Definition toInt (tip : value) : M value := optionalFn (toInt_fn tip).

Definition toArray_fn : M value :=
  x ← get_val;
  let x := if _isUndefined x then VArray [] else x in
  let x := if _isArray x then x else VArray [x] in
  modify (set_val x);;
  return_this.
Definition toArray : M value := optionalFn toArray_fn.

(** The items of an array. *)
Definition items_of (x : value) : list value :=
  match x with VArray items => items | _ => [] end.

Definition toInts_fn (tip : value) : M value :=
  x ← get_val; assert (_isArray x);;
  x ← get_val; k ← get_key;
  when (negb (_every (items_of x) v_isInt))
       (throwError (js_or tip (VString (k +:+ " must be an array of integers"))));;
  x ← get_val;
  let results := map parseInt (items_of x) in
  k ← get_key;
  when (negb (_every results (fun n _ => isSafeInteger n)))
       (throwError
          (js_or tip
             (VString (k +:+ " must not contain numbers out of integer range"))));;
  modify (set_val (VArray (map VNumber results)));;
  return_this.
Definition toInts (tip : value) : M value := optionalFn (toInts_fn tip).

Definition tap_fn (f : arg) : M value :=
  assert (_isFunction f);;
  match f with
  | AFun g =>
      x ← get_val;
      result ← try_catch (g [x])
                 (fun ex =>
                    when (instanceof_ValidationError ex) (throwError VUndefined);;
                    throw ex);
      modify (set_val result);;
      return_this
  | AVal _ => throw EAssertion
  end.
Definition tap (f : arg) : M value := optionalFn (tap_fn f).

(** *** More specific validator methods *)

Definition isAlpha_fn (tip : value) : M value :=
  k ← get_key;
  let tip := js_or tip (VString (k +:+ " must only contain chars a-z")) in
  isString tip;;
  x ← get_val;
  when (negb (test_all is_alpha x)) (throwError tip);;
  return_this.
Definition isAlpha (tip : value) : M value := optionalFn (isAlpha_fn tip).

(** The source passes [this], not [tip], to [isString] here. *)
Definition isAlphanumeric_fn (tip : value) : M value :=
  k ← get_key;
  let tip := js_or tip (VString (k +:+ " must must be alphanumeric (a-z, 0-9)")) in
  self ← return_this;
  isString self;;
  x ← get_val;
  when (negb (test_all is_alnum x)) (throwError tip);;
  return_this.
Definition isAlphanumeric (tip : value) : M value :=
  optionalFn (isAlphanumeric_fn tip).

Definition isNumeric_fn (tip : value) : M value :=
  k ← get_key;
  let tip := js_or tip (VString (k +:+ " must must only contain numbers")) in
  isString tip;;
  x ← get_val;
  when (negb (test_all is_digit x)) (throwError tip);;
  return_this.
Definition isNumeric (tip : value) : M value := optionalFn (isNumeric_fn tip).

(** No call of [isString] here: the regular expression is tested on the
    value as it is, that is on its conversion to a string. *)
Definition isAscii_fn (tip : value) : M value :=
  k ← get_key;
  let tip := js_or tip (VString (k +:+ " must contain only ASCII chars")) in
  x ← get_val;
  when (negb (test_all is_ascii x)) (throwError tip);;
  return_this.
Definition isAscii (tip : value) : M value := optionalFn (isAscii_fn tip).

Definition isBase64_fn (tip : value) : M value :=
  k ← get_key;
  let tip := js_or tip (VString (k +:+ " must be base64 encoded")) in
  isString tip;;
  x ← get_val; len ← length_of x;
  if strict_eq_number len (number_of_Z 0) then return_this
  else
    x ← get_val;
    when (negb (v_isBase64 x)) (throwError tip);;
    return_this.
Definition isBase64 (tip : value) : M value := optionalFn (isBase64_fn tip).

Definition isEmail_fn (tip : value) : M value :=
  k ← get_key;
  let tip := js_or tip (VString (k +:+ " must be a valid email address")) in
  isString tip;;
  x ← get_val;
  when (negb (v_isEmail x)) (throwError tip);;
  return_this.
Definition isEmail (tip : value) : M value := optionalFn (isEmail_fn tip).

Definition isHexColor_fn (tip : value) : M value :=
  k ← get_key;
  let tip := js_or tip (VString (k +:+ " must be a hex color")) in
  isString tip;;
  x ← get_val;
  when (negb (v_isHexColor x)) (throwError tip);;
  return_this.
Definition isHexColor (tip : value) : M value := optionalFn (isHexColor_fn tip).

Definition version_tags : list string := ["v3"; "v4"; "v5"; "all"].

(** The first statement of [isUuid]: the two parameters after the
    overloads have been told apart. *)
Definition isUuid_arguments (version tip : value) : value * value :=
  if _isString version && _isUndefined tip then
    if negb (_contains version_tags version)
    then (VString "all", version)
    else (version, tip)
  else if _isUndefined version && _isUndefined tip then (VString "all", tip)
  else (version, tip).

(** No call of [isString] here either.  [re[version]] converts [version]
    to a property name; when the table has no such entry, [.test] is read
    on [undefined]. *)
Definition isUuid_fn (version tip : value) : M value :=
  let '(version, tip) := isUuid_arguments version tip in
  k ← get_key;
  let tip :=
    js_or tip
      (VString (k +:+ " must be a UUID"
                  +:+ (if negb (strict_eq_string version "all")
                       then ToString version else ""))) in
  match re (ToString version) with
  | None => throw ETypeError
  | Some r =>
      x ← get_val;
      when (negb (test r x)) (throwError tip);;
      return_this
  end.
Definition isUuid (version tip : value) : M value :=
  optionalFn (isUuid_fn version tip).

(** ** The session: [middleware] *)

(** The request data the three accessors of [opts] read. *)
Record Request : Type := mkRequest {
  params : gmap string value;
  query : gmap string value;
  body : gmap string value
}.

(** The state of one session: the request, [this.vals], the [Validator]
    instances allocated so far ([oid] is the position in [objs]) and the
    [validators] map from names to instances. *)
Record session : Type := mkSession {
  request : Request;
  session_vals : gmap string value;
  objs : list Validator;
  validators : gmap string nat
}.

Record Opts : Type := mkOpts {
  getParams : session -> gmap string value;
  getQuery : session -> gmap string value;
  getBody : session -> gmap string value
}.

(** The accessors [middleware] installs when [opts] gives none. *)
Definition default_opts : Opts :=
  {| getParams := fun self => params (request self);
     getQuery := fun self => query (request self);
     getBody := fun self => body (request self) |}.

(** The start of a session: [this.vals = {}] and an empty [validators]. *)
Definition new_session (r : Request) : session :=
  {| request := r; session_vals := ∅; objs := []; validators := ∅ |}.

(** [new Validator({ctx: self, key, val, vals: self.vals, type})]: a fresh
    instance, with [vals[key]] set to [val]. *)
Definition new_Validator (k : string) (x : value) (ty : option string)
    : Eff session nat :=
  fun self =>
    let o := List.length (objs self) in
    Return o
      {| request := request self;
         session_vals := <[k := x]> (session_vals self);
         objs := objs self ++ [ {| oid := o; key := k; type := ty;
                                   _isOptional := false |} ];
         validators := validators self |}.

(** [validators.set(key, o)] *)
Definition validators_set (k : string) (o : nat) (self : session) : session :=
  {| request := request self; session_vals := session_vals self;
     objs := objs self; validators := <[k := o]> (validators self) |}.

(** The body shared by [validateParam], [validateQuery] and
    [validateBody]: [validators.get(key) || validators.set(key, new
    Validator(...)).get(key)]. *)
Definition validator_for (getter : session -> gmap string value)
    (ty : option string) (k : string) : Eff session value :=
  cached ← gets (fun self : session => validators self !! k);
  match cached with
  | Some o => mret (VObject o)
  | None =>
      x ← gets (fun self : session =>
                  if _isUndefined (get (session_vals self) k)
                  then get (getter self) k
                  else get (session_vals self) k);
      o ← new_Validator k x ty;
      modify (validators_set k o);;
      cached ← gets (fun self : session => validators self !! k);
      mret (from_option VObject VUndefined cached)
  end.

Section Middleware.

Variable opts : Opts.

Definition validateParam (k : string) : Eff session value :=
  validator_for (getParams opts) None k.

Definition validateQuery (k : string) : Eff session value :=
  validator_for (getQuery opts) None k.

Definition validateBody (k : string) : Eff session value :=
  validator_for (getBody opts) (Some "body") k.

(** [this.validate = this.check] *)
Definition validate (result tip : value) : Eff session unit :=
  when (negb (truthy result)) (throw (EValidation (ValidationError VNull tip))).

(** [this.validateNot = this.checkNot] *)
Definition validateNot (result tip : value) : Eff session unit :=
  when (truthy result) (throw (EValidation (ValidationError VNull tip))).

End Middleware.

(** A method call [v.m(...)] inside a session, [v] being the instance
    [VObject o]: the method runs on that instance and on the store of the
    session, and what it leaves is written back.  A receiver that is not
    an instance has no such method. *)
Definition put_back (o : nat) (s : state) (self : session) : session :=
  {| request := request self; session_vals := vals s;
     objs := <[o := this s]> (objs self); validators := validators self |}.

Definition call (receiver : value) (m : M value) : Eff session value :=
  fun self =>
    match receiver with
    | VObject o =>
        match objs self !! o with
        | Some v =>
            match m {| this := v; vals := session_vals self |} with
            | Return a s => Return a (put_back o s self)
            | Throw ex s => Throw ex (put_back o s self)
            end
        | None => Throw ETypeError self
        end
    | _ => Throw ETypeError self
    end.

End Methods.

(** ** One instance of the outside

    Used to run the methods on concrete input.  Numbers print as their
    exact decimal expansion, which is what the language prints for the
    integers below [2 ^ 53]; [isInt], [isHexColor] and [isBase64] are the
    patterns the [validator] package documents, applied to its conversion
    of the input to a string ([isInt] without regard to its options);
    [isEmail] only looks for an [@] between two non-empty parts. *)
Module Sample.

Definition decimal (n : N) : string := NilZero.string_of_uint (N.to_uint n).

Fixpoint zeros (n : nat) : string :=
  match n with O => "" | S n' => String "0" (zeros n') end.

(** Removes the zeros at the end of a string of digits. *)
Fixpoint strip_zeros (s : string) : string :=
  match s with
  | EmptyString => ""
  | String c s' =>
      let r := strip_zeros s' in
      if is_char "0" c && String.eqb r "" then "" else String c r
  end.

Definition print_finite (m : positive) (e : Z) : string :=
  match e with
  | Z0 => decimal (Npos m)
  | Zpos p => decimal (Npos m * 2 ^ Npos p)
  | Zneg p =>
      let int_part := (Npos m / 2 ^ Npos p)%N in
      let frac := (Npos m mod 2 ^ Npos p)%N in
      if (frac =? 0)%N then decimal int_part
      else
        let digits := decimal (frac * 5 ^ Npos p) in
        let pad := zeros (Pos.to_nat p - String.length digits) in
        decimal int_part +:+ "." +:+ strip_zeros (pad +:+ digits)
  end.

#[export] Instance number_to_string : NumberToString := fun n =>
  match n with
  | S754_nan => "NaN"
  | S754_infinity false => "Infinity"
  | S754_infinity true => "-Infinity"
  | S754_zero _ => "0"
  | S754_finite false m e => print_finite m e
  | S754_finite true m e => "-" +:+ print_finite m e
  end.

(** The conversion [validator] applies to its input. *)
Definition coerce (x : value) : string :=
  match x with
  | VUndefined | VNull | VNumber S754_nan => ""
  | _ => ToString x
  end.

Definition drop_sign (s : string) : string :=
  match s with
  | String c s' => if is_char "-" c || is_char "+" c then s' else s
  | EmptyString => s
  end.

(** An optional sign, then either a single zero or digits that do not
    start with a zero. *)
Definition int_shaped (s : string) : bool :=
  match drop_sign s with
  | EmptyString => false
  | String c s' =>
      if is_char "0" c then String.eqb s' "" else is_digit c && all_chars is_digit s'
  end.

(** An optional [#], then three or six hexadecimal digits. *)
Definition hex_color_shaped (s : string) : bool :=
  let s := match s with
           | String c s' => if is_char "#" c then s' else s
           | EmptyString => s
           end in
  matches (hex 3) s || matches (hex 6) s.

Definition is_base64_char (c : ascii) : bool :=
  is_alnum c || is_char "+" c || is_char "/" c.

(** Groups of four characters of the alphabet, the last one possibly
    ending in one or two [=]; at least one group. *)
Fixpoint base64_groups (fuel : nat) (s : string) : bool :=
  match fuel with
  | O => false
  | S fuel' =>
      match s with
      | String a (String b (String c (String d rest))) =>
          is_base64_char a && is_base64_char b &&
          match rest with
          | EmptyString =>
              (is_base64_char c && is_base64_char d)
              || (is_base64_char c && is_char "=" d)
              || (is_char "=" c && is_char "=" d)
          | _ => is_base64_char c && is_base64_char d && base64_groups fuel' rest
          end
      | _ => false
      end
  end.

Definition base64_shaped (s : string) : bool := base64_groups (String.length s) s.

Fixpoint split_at (c : ascii) (s : string) : option (string * string) :=
  match s with
  | EmptyString => None
  | String d s' =>
      if is_char c d then Some ("", s')
      else match split_at c s' with
           | Some (l, r) => Some (String d l, r)
           | None => None
           end
  end.

Definition email_shaped (s : string) : bool :=
  match split_at "@" s with
  | Some (l, r) => negb (String.eqb l "") && negb (String.eqb r "")
  | None => false
  end.

#[export] Instance validator_package : ValidatorPackage :=
  {| v_isInt x _ := int_shaped (coerce x);
     v_isBase64 x := base64_shaped (coerce x);
     v_isEmail x := email_shaped (coerce x);
     v_isHexColor x := hex_color_shaped (coerce x) |}.

End Sample.

(** ** Further built-in methods *)

(** [a && b] *)
Definition js_and (a b : value) : value := if truthy a then b else a.

(** [Number.isInteger(x)]: a number whose value is an integer. *)
Definition Number_isInteger (x : value) : bool :=
  match x with
  | VNumber (S754_zero _) => true
  | VNumber (S754_finite _ m e) =>
      match e with
      | Zneg p => (Npos m mod 2 ^ Npos p =? 0)%N
      | _ => true
      end
  | _ => false
  end.

(** [Number.isFinite(x)]: a number that is neither [NaN] nor infinite. *)
Definition Number_isFinite (x : value) : bool :=
  match x with
  | VNumber (S754_zero _) | VNumber (S754_finite _ _ _) => true
  | _ => false
  end.

(** [isSafeInteger] where the source applies it to the current value,
    which [Number.isInteger] has then accepted as a number. *)
Definition isSafeInteger_value (x : value) : bool :=
  match x with VNumber n => isSafeInteger n | _ => false end.

(** [s.trim()]: white space removed at both ends. *)
Fixpoint trim_end (s : string) : string :=
  match s with
  | EmptyString => ""
  | String c s' =>
      let r := trim_end s' in
      if is_white_space c && String.eqb r "" then "" else String c r
  end.

Definition trim_string (s : string) : string := trim_end (skip_white_space s).

Section FurtherMethods.

Context `{NumberToString}.

Definition isLength_fn (min max tip : value) : M value :=
  x ← get_val; len ← length_of x;
  assert (negb (_isUndefined len));;
  assert (Number_isInteger min);;
  assert (Number_isInteger max);;
  assert (js_le min max);;
  x ← get_val; len ← length_of x; k ← get_key;
  when (js_lt len min || js_lt max len)
       (throwError
          (js_or tip
             (VString (k +:+ " must be " +:+ ToString min +:+ "-"
                         +:+ ToString max +:+ " characters long"))));;
  return_this.
Definition isLength (min max tip : value) : M value :=
  optionalFn (isLength_fn min max tip).

Definition isInt_fn (tip : value) : M value :=
  x ← get_val; k ← get_key;
  when (negb (Number_isInteger x))
       (throwError (js_or tip (VString (k +:+ " must be an integer"))));;
  x ← get_val; k ← get_key;
  when (negb (isSafeInteger_value x))
       (throwError (js_or tip (VString (k +:+ " is out of integer range"))));;
  return_this.
Definition isInt (tip : value) : M value := optionalFn (isInt_fn tip).

Definition isFiniteNumber_fn (tip : value) : M value :=
  x ← get_val; k ← get_key;
  when (negb (Number_isFinite x))
       (throwError (js_or tip (VString (k +:+ " must be a number"))));;
  return_this.
Definition isFiniteNumber (tip : value) : M value :=
  optionalFn (isFiniteNumber_fn tip).

Definition toBoolean_fn : M value :=
  x ← get_val;
  modify (set_val (VBool (truthy x)));;
  return_this.
Definition toBoolean : M value := optionalFn toBoolean_fn.

(** [this.val() && this.val().toString() || '']: the call of [toString]
    is only reached on a truthy value, where it is the conversion to a
    string. *)
Definition toString_fn : M value :=
  x ← get_val;
  modify (set_val (js_or (js_and x (VString (ToString x))) (VString "")));;
  return_this.
Definition toString : M value := optionalFn toString_fn.

Definition trim_fn : M value :=
  x ← get_val; assert (_isString x);;
  x ← get_val;
  match x with
  | VString t => modify (set_val (VString (trim_string t)));; return_this
  | _ => throw ETypeError
  end.
Definition trim : M value := optionalFn trim_fn.

Definition check_fn (result tip : value) : M value :=
  when (negb (truthy result)) (throwError tip);;
  return_this.
Definition check (result tip : value) : M value := optionalFn (check_fn result tip).

Definition checkNot_fn (result tip : value) : M value :=
  when (truthy result) (throwError tip);;
  return_this.
Definition checkNot (result tip : value) : M value :=
  optionalFn (checkNot_fn result tip).

Definition checkPred_fn (pred : arg) (tip : value) : M value :=
  assert (_isFunction pred);;
  match pred with
  | AFun p =>
      x ← get_val; r ← p [x];
      when (negb (truthy r)) (throwError tip);;
      return_this
  | AVal _ => throw EAssertion
  end.
Definition checkPred (pred : arg) (tip : value) : M value :=
  optionalFn (checkPred_fn pred tip).

Definition checkNotPred_fn (pred : arg) (tip : value) : M value :=
  assert (_isFunction pred);;
  match pred with
  | AFun p =>
      x ← get_val; r ← p [x];
      when (truthy r) (throwError tip);;
      return_this
  | AVal _ => throw EAssertion
  end.
Definition checkNotPred (pred : arg) (tip : value) : M value :=
  optionalFn (checkNotPred_fn pred tip).

End FurtherMethods.

(** ** Vocabulary of the statements *)

(** The optional-skip state: the flag is set and the value is absent. *)
Definition skipping (s : state) : bool :=
  _isOptional (this s) && _isUndefined (val s).

(** A Validator for the name [k], on a store. *)
Definition validator_on (k : string) (optional_flag : bool)
    (store : gmap string value) : state :=
  {| this := {| oid := 0; key := k; type := None; _isOptional := optional_flag |};
     vals := store |}.

(** [.optional().defaultTo(5).gt(0)] *)
Definition optional_defaultTo_gt : M value :=
  optional;;
  defaultTo (AVal (VNumber (number_of_Z 5)));;
  gt (VNumber (number_of_Z 0)) VUndefined.

(** [m] tests the value against [r]: it returns the Validator when the
    value, converted to a string, matches, and raises a ValidationError
    for this name with message [msg] when it does not; the store is left
    as it is either way. *)
Definition tests_against `{NumberToString} (r : pattern) (msg : value)
    (m : M value) (s : state) : Prop :=
  m s = if test r (val s)
        then Return (this_value s) (set_isOptional false s)
        else Throw (EValidation (ValidationError (VString (key (this s))) msg))
               (set_isOptional false s).

(** The session a first lookup of [k] leaves. *)
Definition with_new_validator (getter : session -> gmap string value)
    (ty : option string) (k : string) (self : session) : session :=
  {| request := request self;
     session_vals :=
       <[k := if _isUndefined (get (session_vals self) k)
              then get (getter self) k else get (session_vals self) k]>
         (session_vals self);
     objs := objs self ++ [ {| oid := List.length (objs self); key := k;
                               type := ty; _isOptional := false |} ];
     validators := <[k := List.length (objs self)]> (validators self) |}.

(** [this.validateBody('age').required().toInt()], and the same followed
    by [.gte(18)]. *)
Definition age_chain_to_int `{NumberToString} `{ValidatorPackage}
    (opts : Opts) : Eff session value :=
  v ← validateBody opts "age";
  v ← call v (required VUndefined);
  call v (toInt VUndefined).

Definition age_chain `{NumberToString} `{ValidatorPackage}
    (opts : Opts) : Eff session value :=
  v ← age_chain_to_int opts;
  call v (gte (VNumber (number_of_Z 18)) VUndefined).

(** The three lookup functions of a session, by the source they read. *)
Inductive source : Type := Param | Query | Body.

Definition validator_from (opts : Opts) (src : source) (k : string)
    : Eff session value :=
  match src with
  | Param => validateParam opts k
  | Query => validateQuery opts k
  | Body => validateBody opts k
  end.

Definition getter_of (opts : Opts) (src : source) : session -> gmap string value :=
  match src with
  | Param => getParams opts
  | Query => getQuery opts
  | Body => getBody opts
  end.

Definition type_of (src : source) : option string :=
  match src with Body => Some "body" | _ => None end.

(** [this.vals[k] = x], written by the handler itself. *)
Definition write_vals (k : string) (x : value) (self : session) : session :=
  {| request := request self; session_vals := <[k := x]> (session_vals self);
     objs := objs self; validators := validators self |}.

(** What the code of a handler can do in a session, one step at a time:
    ask for a Validator, call a method on some value (whether the call
    returns or throws), or write to [this.vals]. *)
Inductive session_step (opts : Opts) : relation session :=
| step_lookup (src : source) (k : string) (self : session) :
    session_step opts self (state_of (validator_from opts src k self))
| step_call (receiver : value) (m : M value) (self : session) :
    session_step opts self (state_of (call receiver m self))
| step_write (k : string) (x : value) (self : session) :
    session_step opts self (write_vals k x self).

(** Methods called one after the other on the same Validator:
    [v.m1(..).m2(..)...]. *)
Fixpoint chain (ms : list (M value)) : M value :=
  match ms with
  | [] => return_this
  | m :: rest => m;; chain rest
  end.

(** [m] leaves the Validator it runs on what it is (same object, same
    name) and writes no entry of the store other than the one of that
    name. *)
Definition writes_own_entry_only {A} (m : M A) : Prop :=
  forall s : state,
    let s' := state_of (m s) in
    oid (this s') = oid (this s) /\
    key (this s') = key (this s) /\
    forall k' : string, k' <> key (this s) -> vals s' !! k' = vals s !! k'.

(** Every name of the cache leads to an instance that governs that name. *)
Definition cache_consistent (self : session) : Prop :=
  forall (k : string) (o : nat),
    validators self !! k = Some o ->
    exists v, objs self !! o = Some v /\ key v = k /\ oid v = o.

(** The steps of a handler that only calls methods which keep to their
    own entry. *)
Inductive handler_step (opts : Opts) : relation session :=
| handler_lookup (src : source) (k : string) (self : session) :
    handler_step opts self (state_of (validator_from opts src k self))
| handler_call (receiver : value) (m : M value) (self : session) :
    writes_own_entry_only m ->
    handler_step opts self (state_of (call receiver m self))
| handler_write (k : string) (x : value) (self : session) :
    handler_step opts self (write_vals k x self).

(** A call that returns, and a call that raises a ValidationError. *)
Definition returns {St A} (m : Eff St A) (s : St) : Prop :=
  exists a s', m s = Return a s'.

Definition raises_validation {St A} (m : Eff St A) (s : St) : Prop :=
  exists e s', m s = Throw (EValidation e) s'.

(** * Properties *)

Ltac run :=
  unfold optionalFn, isOptional, return_this, get_val, get_key,
    get_isOptional, when, assert, throw, try_catch, gets, modify,
    mbind, Eff_bind, mret, Eff_ret in *; simpl in *.

Lemma set_isOptional_same (s : state) :
  _isOptional (this s) = false -> set_isOptional false s = s.
Proof. destruct s as [[o k t f] m]; simpl; intros ->; reflexivity. Qed.

Lemma val_set_isOptional (b : bool) (s : state) :
  val (set_isOptional b s) = val s.
Proof. reflexivity. Qed.

Lemma val_set_val (x : value) (s : state) : val (set_val x s) = x.
Proof. unfold val, set_val, get; simpl. by rewrite lookup_insert_eq. Qed.

Lemma _isUndefined_spec (x : value) : _isUndefined x = true <-> x = VUndefined.
Proof. destruct x; simpl; split; congruence. Qed.

(** In the optional-skip state a wrapped method returns [this] and leaves
    everything as it is. *)
Lemma optionalFn_skip (fn : M value) (s : state) :
  skipping s = true -> optionalFn fn s = Return (this_value s) s.
Proof.
  unfold skipping; intros [Ho Hu]%andb_prop.
  run. rewrite Ho, Hu. simpl. rewrite Ho. reflexivity.
Qed.

(** Outside it, the wrapped method is the method itself, run with the
    flag down. *)
Lemma optionalFn_run (fn : M value) (s : state) :
  skipping s = false -> optionalFn fn s = fn (set_isOptional false s).
Proof.
  unfold skipping; intros Hs. run.
  destruct (_isOptional (this s)) eqn:Ho; simpl in *.
  - rewrite Hs. reflexivity.
  - rewrite Ho. f_equal. symmetry. by apply set_isOptional_same.
Qed.

(** C1. Any method registered with [addMethod]: called while the optional
    flag is set and the value is [undefined], it returns the Validator and
    changes neither the store nor the flag; called while the flag is set
    and the value is present, it runs the registered function with the flag
    cleared. *)
Theorem registered_method_optional_guard {Args : Type} (name : string)
    (fn : method Args) (prototype : gmap string (method Args))
    (arguments : Args) (s : state) :
  _isOptional (this s) = true ->
  exists m : method Args,
    addMethod name fn prototype !! name = Some m /\
    (val s = VUndefined -> m arguments s = Return (this_value s) s) /\
    (val s <> VUndefined ->
       _isOptional (this (set_isOptional false s)) = false /\
       vals (set_isOptional false s) = vals s /\
       m arguments s = fn arguments (set_isOptional false s)).
Proof.
  intros Ho. eexists. split; [apply lookup_insert_eq|]. split.
  - intros Hv. apply optionalFn_skip. unfold skipping. by rewrite Ho, Hv.
  - intros Hv. repeat split. apply optionalFn_run. unfold skipping.
    rewrite Ho. simpl. revert Hv. destruct (val s); simpl; congruence.
Qed.

Lemma registered_method_optional_guard_witness :
  let gt' : method (value * value) := fun a => gt_fn a.1 a.2 in
  let five := VNumber (number_of_Z 5) in
  let absent := validator_on "n" true ∅ in
  let present := validator_on "n" true {["n" := VNumber (number_of_Z 3)]} in
  (exists m, addMethod "gt" gt' ∅ !! "gt" = Some m /\
             m (five, VUndefined) absent = Return (this_value absent) absent) /\
  (exists m, addMethod "gt" gt' ∅ !! "gt" = Some m /\
             m (five, VUndefined) present
             = gt' (five, VUndefined) (set_isOptional false present)).
Proof.
  intros gt' five absent present. split.
  - destruct (registered_method_optional_guard "gt" gt' ∅ (five, VUndefined) absent)
      as [m [Hm [Ha _]]]; [reflexivity|].
    exists m. split; [exact Hm | apply Ha; reflexivity].
  - destruct (registered_method_optional_guard "gt" gt' ∅ (five, VUndefined) present)
      as [m [Hm [_ Hp]]]; [reflexivity|].
    exists m. split; [exact Hm | apply Hp; vm_compute; discriminate].
Defined.

(** *** [optional], [defaultTo], [gt] in a row *)

Lemma optional_arms (s : state) :
  val s = VUndefined -> optional s = Return (this_value s) (set_isOptional true s).
Proof. intros Hv. unfold optional. run. rewrite Hv. reflexivity. Qed.

Lemma skipping_armed (s : state) :
  val s = VUndefined -> skipping (set_isOptional true s) = true.
Proof. intros Hv. unfold skipping. simpl. by rewrite val_set_isOptional, Hv. Qed.

(** C2, as the code has it. On a Validator whose value is absent,
    [.optional().defaultTo(5).gt(0)] returns without raising, but
    [defaultTo] is a registered method like the others: the guard skips
    it, the value stays absent and the flag stays set, and [gt] is
    skipped as well. *)
Theorem optional_defaultTo_gt_skips_both (s : state) :
  val s = VUndefined ->
  optional_defaultTo_gt s = Return (this_value s) (set_isOptional true s) /\
  val (set_isOptional true s) = VUndefined.
Proof.
  intros Hv. split; [|exact Hv].
  unfold optional_defaultTo_gt, defaultTo, gt.
  unfold mbind at 1, Eff_bind. rewrite (optional_arms s Hv).
  unfold mbind at 1, Eff_bind. rewrite optionalFn_skip by (by apply skipping_armed).
  rewrite optionalFn_skip by (by apply skipping_armed).
  reflexivity.
Qed.

Lemma optional_defaultTo_gt_skips_both_witness :
  let s := validator_on "n" false ∅ in
  optional_defaultTo_gt s = Return (this_value s) (set_isOptional true s) /\
  val (set_isOptional true s) = VUndefined.
Proof. intros s. apply (optional_defaultTo_gt_skips_both s). reflexivity. Defined.

(** C2 as claimed fails: on an absent value the chain does not leave 5 in
    the store. *)
Lemma optional_defaultTo_gt_counterexample :
  let s := validator_on "n" false ∅ in
  val s = VUndefined /\
  ~ (exists a s', optional_defaultTo_gt s = Return a s' /\
                  val s' = VNumber (number_of_Z 5)).
Proof.
  intros s. split; [reflexivity|].
  intros (a & s' & Hr & Hv).
  assert (Hs : s' = state_of (optional_defaultTo_gt s)) by (by rewrite Hr).
  rewrite Hs in Hv. vm_compute in Hv. discriminate.
Qed.

(** *** [toInts] *)

Lemma not_skipping_present (s : state) :
  val s <> VUndefined -> skipping s = false.
Proof.
  intros Hv. unfold skipping. destruct (_isUndefined (val s)) eqn:Hu.
  - apply _isUndefined_spec in Hu. contradiction.
  - apply andb_false_r.
Qed.

Lemma every_from_spec {A} (p : A -> value -> bool) (items : list A) (n : nat) :
  every_from n items p = true <->
  forall (i : nat) (x : A), items !! i = Some x -> p x (index (n + i)) = true.
Proof.
  revert n. induction items as [|y items IH]; intros n; simpl.
  - split; [intros _ i x Hi; destruct i; discriminate | reflexivity].
  - rewrite andb_true_iff, IH. split.
    + intros [Hy Hrest] [|i] x Hi; simpl in Hi.
      * injection Hi as <-. by rewrite Nat.add_0_r.
      * rewrite Nat.add_succ_r. by apply Hrest.
    + intros Hall. split.
      * specialize (Hall 0%nat y eq_refl). by rewrite Nat.add_0_r in Hall.
      * intros i x Hi. specialize (Hall (S i) x Hi).
        by rewrite Nat.add_succ_r in Hall.
Qed.

Lemma _every_spec {A} (p : A -> value -> bool) (items : list A) :
  _every items p = true <->
  forall (i : nat) (x : A), items !! i = Some x -> p x (index i) = true.
Proof. apply (every_from_spec p items 0). Qed.

Lemma _every_map {A B} (g : A -> B) (p : B -> value -> bool) (items : list A) :
  _every (map g items) p = _every items (fun x i => p (g x) i).
Proof.
  unfold _every. generalize 0%nat.
  induction items as [|x items IH]; intros n; simpl; [reflexivity|].
  by rewrite IH.
Qed.

(** C4. [toInts] on an array: if some item fails [v.isInt], or some parsed
    item is not a safe integer, a ValidationError for this name is raised
    and the store is the one before the call; if every item passes both,
    the entry becomes the array of the parsed numbers. *)
Theorem toInts_all_or_nothing `{NumberToString} `{ValidatorPackage}
    (tip : value) (s : state) (items : list value) :
  val s = VArray items ->
  (((exists i x, items !! i = Some x /\ v_isInt x (index i) = false) \/
    (exists i x, items !! i = Some x /\ isSafeInteger (parseInt x) = false)) ->
   exists e s',
     toInts tip s = Throw (EValidation e) s' /\
     bouncer_key (err_bouncer e) = VString (key (this s)) /\
     vals s' = vals s) /\
  ((forall i x, items !! i = Some x ->
      v_isInt x (index i) = true /\ isSafeInteger (parseInt x) = true) ->
   exists s',
     toInts tip s = Return (this_value s) s' /\
     val s' = VArray (map (fun x => VNumber (parseInt x)) items)).
Proof.
  intros Hv.
  assert (Hrun : toInts tip s = toInts_fn tip (set_isOptional false s)).
  { apply optionalFn_run, not_skipping_present. rewrite Hv. discriminate. }
  rewrite Hrun. unfold toInts_fn. run.
  do 2 (rewrite !val_set_isOptional, Hv; simpl).
  destruct (_every items v_isInt) eqn:Hint; simpl.
  - rewrite !val_set_isOptional, Hv. simpl. rewrite _every_map.
    destruct (_every items (fun x _ => isSafeInteger (parseInt x))) eqn:Hsafe; simpl.
    + split.
      * intros [(i & x & Hi & Hx) | (i & x & Hi & Hx)].
        -- rewrite _every_spec in Hint. rewrite (Hint i x Hi) in Hx. discriminate.
        -- rewrite _every_spec in Hsafe. rewrite (Hsafe i x Hi) in Hx. discriminate.
      * intros _. eexists. split; [reflexivity|].
        rewrite val_set_val, map_map. reflexivity.
    + split.
      * intros _. unfold throwError. simpl. eauto.
      * intros Hall. exfalso.
        assert (_every items (fun x _ => isSafeInteger (parseInt x)) = true);
          [|congruence].
        apply _every_spec. intros i x Hi. by apply (Hall i x Hi).
  - split.
    + intros _. unfold throwError. simpl. eauto.
    + intros Hall. exfalso.
      assert (_every items v_isInt = true); [|congruence].
      apply _every_spec. intros i x Hi. by apply (Hall i x Hi).
Qed.

Lemma toInts_all_or_nothing_witness :
  let bad := [VString "1"; VString "x"; VString "3"] in
  let good := [VString "1"; VString "2"; VString "3"] in
  (exists e s',
     @toInts Sample.number_to_string Sample.validator_package VUndefined (validator_on "ids" false {["ids" := VArray bad]})
     = Throw (EValidation e) s' /\
     bouncer_key (err_bouncer e) = VString "ids" /\
     vals s' = {["ids" := VArray bad]}) /\
  (exists s',
     @toInts Sample.number_to_string Sample.validator_package VUndefined (validator_on "ids" false {["ids" := VArray good]})
     = Return (VObject 0) s' /\
     val s' = VArray [VNumber (number_of_Z 1); VNumber (number_of_Z 2);
                      VNumber (number_of_Z 3)]).
Proof.
  intros bad good. split.
  - destruct (@toInts_all_or_nothing Sample.number_to_string
                Sample.validator_package VUndefined
                (validator_on "ids" false {["ids" := VArray bad]}) bad)
      as [Hbad _]; [reflexivity|].
    apply Hbad. left. exists 1%nat, (VString "x"). split; reflexivity.
  - destruct (@toInts_all_or_nothing Sample.number_to_string
                Sample.validator_package VUndefined
                (validator_on "ids" false {["ids" := VArray good]}) good)
      as [_ Hgood]; [reflexivity|].
    apply Hgood. intros [|[|[|i]]] x Hi; simpl in Hi; try discriminate;
      injection Hi as <-; split; reflexivity.
Defined.

(** *** [gt] on a value that is not a number *)

(** C9. When the value is not a number and the Validator is not in the
    optional-skip state, [gt(5)] raises the assertion error, which is not
    a ValidationError, and the store is the one before the call. *)
Theorem gt_not_a_number_asserts (tip : value) (s : state) :
  skipping s = false ->
  _isNumber (val s) = false ->
  exists s',
    gt (VNumber (number_of_Z 5)) tip s = Throw EAssertion s' /\
    instanceof_ValidationError EAssertion = false /\
    vals s' = vals s.
Proof.
  intros Hs Hn. exists (set_isOptional false s).
  unfold gt. rewrite (optionalFn_run _ s Hs). unfold gt_fn. run.
  rewrite val_set_isOptional, Hn. simpl. auto.
Qed.

Lemma gt_not_a_number_asserts_witness :
  let s := validator_on "n" false {["n" := VString "7"]} in
  exists s',
    gt (VNumber (number_of_Z 5)) VUndefined s = Throw EAssertion s' /\
    instanceof_ValidationError EAssertion = false /\
    vals s' = vals s.
Proof.
  intros s. apply (gt_not_a_number_asserts VUndefined s); reflexivity.
Defined.

(** *** [isBase64] on the empty string *)

(** C10. On the empty string [isBase64] returns the Validator and leaves
    the store as it is, whatever [v.isBase64] answers: the length test
    comes first. *)
Theorem isBase64_accepts_empty `{ValidatorPackage} (tip : value) (s : state) :
  val s = VString "" ->
  exists s',
    isBase64 tip s = Return (this_value s) s' /\ vals s' = vals s.
Proof.
  intros Hv. exists (set_isOptional false s).
  assert (Hrun : isBase64 tip s = isBase64_fn tip (set_isOptional false s)).
  { apply optionalFn_run, not_skipping_present. rewrite Hv. discriminate. }
  rewrite Hrun. unfold isBase64_fn, isString, isString_fn. run.
  do 2 (rewrite !val_set_isOptional, Hv; simpl). auto.
Qed.

Lemma isBase64_accepts_empty_witness :
  let s := validator_on "blob" false {["blob" := VString ""]} in
  @v_isBase64 Sample.validator_package (VString "") = false /\
  exists s',
    @isBase64 Sample.validator_package VUndefined s = Return (this_value s) s' /\
    vals s' = vals s.
Proof.
  intros s. split; [reflexivity|].
  apply (isBase64_accepts_empty VUndefined s). reflexivity.
Defined.

(** *** [tap] *)

(** C5. [tap(f)] outside the optional-skip state, by what [f] does when it
    is called on the current value: if [f] throws a ValidationError, [tap]
    throws a new one for this Validator's name with the default message of
    [throwError]; if [f] throws anything else, [tap] throws the same; if
    [f] returns, what it returns is written to the store. *)
Theorem tap_by_cases (f : list value -> M value) (s : state) :
  skipping s = false ->
  match f [val s] (set_isOptional false s) with
  | Throw (EValidation inner) s1 =>
      tap (AFun f) s
      = Throw (EValidation
                 (ValidationError (VString (key (this s1)))
                    (VString ("Invalid value for " +:+ key (this s1))))) s1
  | Throw ex s1 => tap (AFun f) s = Throw ex s1
  | Return x s1 =>
      tap (AFun f) s = Return (this_value s1) (set_val x s1) /\
      val (set_val x s1) = x
  end.
Proof.
  intros Hs. unfold tap. rewrite (optionalFn_run _ s Hs).
  unfold tap_fn. run. rewrite val_set_isOptional.
  destruct (f [val s] (set_isOptional false s)) as [x s1 | ex s1]; simpl.
  - split; [reflexivity | apply val_set_val].
  - destruct ex; reflexivity.
Qed.

Lemma tap_by_cases_witness :
  let s := validator_on "n" false {["n" := VString "a"]} in
  let inner := ValidationError (VString "other") (VString "inner message") in
  tap (AFun (fun _ => throw (EValidation inner))) s
  = Throw (EValidation
             (ValidationError (VString "n") (VString "Invalid value for n"))) s /\
  tap (AFun (fun _ => throw (EOther (VString "boom")))) s
  = Throw (EOther (VString "boom")) s /\
  tap (AFun (fun _ => throw ETypeError)) s = Throw ETypeError s /\
  tap (AFun (fun args => mret (VArray args))) s
  = Return (VObject 0) (set_val (VArray [VString "a"]) s).
Proof.
  intros s inner. split; [|split; [|split]].
  - apply (tap_by_cases (fun _ => throw (EValidation inner)) s). reflexivity.
  - apply (tap_by_cases (fun _ => throw (EOther (VString "boom"))) s). reflexivity.
  - apply (tap_by_cases (fun _ => throw ETypeError) s). reflexivity.
  - destruct (tap_by_cases (fun args => mret (VArray args)) s) as [Hw _];
      [reflexivity | exact Hw].
Defined.

(** *** Methods on a present value *)

Lemma required_present (tip : value) (s : state) :
  val s <> VUndefined -> required tip s = Return (this_value s) s.
Proof.
  intros Hv. unfold required. run.
  destruct (_isUndefined (val s)) eqn:Hu; [|reflexivity].
  apply _isUndefined_spec in Hu. contradiction.
Qed.

Lemma toInt_converts `{NumberToString} `{ValidatorPackage} (tip : value) (s : state) :
  skipping s = false ->
  v_isInt (val s) VUndefined = true ->
  isSafeInteger (parseInt (val s)) = true ->
  toInt tip s
  = Return (this_value s)
      (set_val (VNumber (parseInt (val s))) (set_isOptional false s)).
Proof.
  intros Hs Hi Hsafe. unfold toInt. rewrite (optionalFn_run _ s Hs).
  unfold toInt_fn. run. rewrite !val_set_isOptional, Hi. simpl.
  rewrite !val_set_isOptional, Hsafe. reflexivity.
Qed.

Lemma gte_below (a b : number) (tip : value) (s : state) :
  val s = VNumber a ->
  num_lt a b = true ->
  gte (VNumber b) tip s
  = Throw (EValidation
             (ValidationError (VString (key (this s)))
                (js_or (js_or tip (VString ("Invalid " +:+ key (this s))))
                       (VString ("Invalid value for " +:+ key (this s))))))
      (set_isOptional false s).
Proof.
  intros Hv Hlt. unfold gte.
  rewrite optionalFn_run by (apply not_skipping_present; rewrite Hv; discriminate).
  unfold gte_fn. run. do 2 (rewrite !val_set_isOptional, Hv; simpl).
  rewrite Hlt. reflexivity.
Qed.

(** *** Lookups and calls in a session *)

Lemma get_empty (k : string) : get ∅ k = VUndefined.
Proof. unfold get. by rewrite lookup_empty. Qed.

Lemma get_insert_eq (k : string) (x : value) (m : gmap string value) :
  get (<[k := x]> m) k = x.
Proof. unfold get. by rewrite lookup_insert_eq. Qed.

#[local] Arguments number_of_Z : simpl never.
#[local] Arguments call : simpl never.


Lemma validator_for_cached (getter : session -> gmap string value)
    (ty : option string) (k : string) (o : nat) (self : session) :
  validators self !! k = Some o ->
  validator_for getter ty k self = Return (VObject o) self.
Proof.
  intros Hc. unfold validator_for, mbind, Eff_bind, gets. rewrite Hc. reflexivity.
Qed.

Lemma validator_for_fresh (getter : session -> gmap string value)
    (ty : option string) (k : string) (self : session) :
  validators self !! k = None ->
  validator_for getter ty k self
  = Return (VObject (List.length (objs self)))
      (with_new_validator getter ty k self).
Proof.
  intros Hc. unfold validator_for, mbind, Eff_bind, gets, modify, mret, Eff_ret.
  rewrite Hc. simpl. rewrite lookup_insert_eq. reflexivity.
Qed.

Lemma call_instance (o : nat) (v : Validator) (m : M value) (self : session) :
  objs self !! o = Some v ->
  call (VObject o) m self
  = match m {| this := v; vals := session_vals self |} with
    | Return a s => Return a (put_back o s self)
    | Throw ex s => Throw ex (put_back o s self)
    end.
Proof. intros Ho. unfold call. rewrite Ho. reflexivity. Qed.

(** *** A whole chain in a session *)

(** C6. In a new session whose body gives the string 17 for [age], and
    with a [v.isInt] that accepts that string,
    [validateBody('age').required().toInt()] returns and leaves the number
    17 in the store; [.gte(18)] called next raises a ValidationError whose
    key is [age], and the store still holds 17 where it is raised. *)
Theorem age_chain_raises_after_conversion `{NumberToString} `{ValidatorPackage}
    (opts : Opts) (r : Request) :
  v_isInt (VString "17") VUndefined = true ->
  get (getBody opts (new_session r)) "age" = VString "17" ->
  exists e v self1 self2,
    age_chain_to_int opts (new_session r) = Return v self1 /\
    get (session_vals self1) "age" = VNumber (number_of_Z 17) /\
    call v (gte (VNumber (number_of_Z 18)) VUndefined) self1
    = Throw (EValidation e) self2 /\
    age_chain opts (new_session r) = Throw (EValidation e) self2 /\
    bouncer_key (err_bouncer e) = VString "age" /\
    get (session_vals self2) "age" = VNumber (number_of_Z 17).
Proof.
  intros Hint Hbody.
  assert (Hto : exists self1,
    age_chain_to_int opts (new_session r) = Return (VObject 0) self1 /\
    objs self1 !! 0%nat
    = Some {| oid := 0; key := "age"; type := Some "body"; _isOptional := false |} /\
    session_vals self1 !! "age" = Some (VNumber (number_of_Z 17))).
  { eexists. split; [|split].
    - unfold age_chain_to_int, validateBody.
      unfold mbind at 1, Eff_bind.
      rewrite validator_for_fresh by reflexivity.
      unfold with_new_validator. simpl. rewrite get_empty. simpl. rewrite Hbody.
      unfold mbind, Eff_bind.
      erewrite call_instance by reflexivity. simpl.
      rewrite required_present by (unfold val; simpl; by rewrite get_insert_eq).
      unfold this_value, put_back. simpl.
      erewrite call_instance by reflexivity. simpl.
      rewrite toInt_converts.
      + reflexivity.
      + reflexivity.
      + unfold val. simpl. by rewrite get_insert_eq.
      + unfold val. simpl. rewrite get_insert_eq. reflexivity.
    - reflexivity.
    - simpl. rewrite lookup_insert_eq. unfold val. simpl.
      rewrite get_insert_eq. reflexivity. }
  destruct Hto as (self1 & Hc & Ho & Hv).
  set (v0 := {| oid := 0; key := "age"; type := Some "body"; _isOptional := false |}) in *.
  set (s1 := {| this := v0; vals := session_vals self1 |}).
  assert (Hval : val s1 = VNumber (number_of_Z 17)).
  { unfold val, get. simpl. by rewrite Hv. }
  assert (Hgte : call (VObject 0) (gte (VNumber (number_of_Z 18)) VUndefined) self1
                 = Throw (EValidation
                            (ValidationError (VString "age") (VString "Invalid age")))
                     (put_back 0 (set_isOptional false s1) self1)).
  { rewrite (call_instance 0 v0 _ self1 Ho). fold s1.
    rewrite (gte_below (number_of_Z 17) (number_of_Z 18) VUndefined s1 Hval eq_refl).
    reflexivity. }
  exists (ValidationError (VString "age") (VString "Invalid age")), (VObject 0),
    self1, (put_back 0 (set_isOptional false s1) self1).
  split; [exact Hc|]. split; [unfold get; by rewrite Hv|].
  split; [exact Hgte|]. split.
  - unfold age_chain, mbind, Eff_bind. rewrite Hc. exact Hgte.
  - split; [reflexivity|]. simpl. unfold get. by rewrite Hv.
Qed.

Lemma age_chain_raises_after_conversion_witness :
  let r := {| params := ∅; query := ∅; body := {["age" := VString "17"]} |} in
  exists e v self1 self2,
    @age_chain_to_int Sample.number_to_string Sample.validator_package
      default_opts (new_session r) = Return v self1 /\
    get (session_vals self1) "age" = VNumber (number_of_Z 17) /\
    call v (gte (VNumber (number_of_Z 18)) VUndefined) self1
    = Throw (EValidation e) self2 /\
    @age_chain Sample.number_to_string Sample.validator_package
      default_opts (new_session r) = Throw (EValidation e) self2 /\
    bouncer_key (err_bouncer e) = VString "age" /\
    get (session_vals self2) "age" = VNumber (number_of_Z 17).
Proof.
  intros r.
  apply (@age_chain_raises_after_conversion Sample.number_to_string
           Sample.validator_package default_opts r); reflexivity.
Defined.

(** *** The cache of a session *)

Lemma validator_from_unfold (opts : Opts) (src : source) (k : string) :
  validator_from opts src k = validator_for (getter_of opts src) (type_of src) k.
Proof. destruct src; reflexivity. Qed.

Lemma session_step_keeps_cache (opts : Opts) (k : string) (o : nat)
    (self self' : session) :
  session_step opts self self' ->
  validators self !! k = Some o -> validators self' !! k = Some o.
Proof.
  intros Hstep Hc. destruct Hstep as [src k' self | receiver m self | k' x self].
  - rewrite validator_from_unfold.
    destruct (validators self !! k') as [o'|] eqn:Hk'.
    + by rewrite (validator_for_cached _ _ _ o').
    + rewrite validator_for_fresh by assumption. simpl.
      rewrite lookup_insert_ne; [assumption | congruence].
  - unfold call. destruct receiver; try assumption.
    destruct (objs self !! o0); [|assumption].
    destruct (m _); assumption.
  - assumption.
Qed.

Lemma session_steps_keep_cache (opts : Opts) (k : string) (o : nat)
    (self self' : session) :
  rtc (session_step opts) self self' ->
  validators self !! k = Some o -> validators self' !! k = Some o.
Proof.
  induction 1 as [|self mid self' Hstep _ IH]; [done|].
  intros Hc. apply IH. by eapply session_step_keeps_cache.
Qed.

(** C3. In a session, the first request for a name returns an instance
    (seeded, when the name is new, from the store or else from the
    requested source); after any further steps of the session, a request
    for the same name through any of the three functions returns that same
    instance and changes nothing in the session: store, instances and
    cache are as the steps left them. *)
Theorem same_name_same_validator (opts : Opts) (src1 : source) (k : string)
    (self0 : session) :
  exists o self1,
    validator_from opts src1 k self0 = Return (VObject o) self1 /\
    (validators self0 !! k = None ->
     self1 = with_new_validator (getter_of opts src1) (type_of src1) k self0) /\
    forall self2, rtc (session_step opts) self1 self2 ->
      forall src2, validator_from opts src2 k self2 = Return (VObject o) self2.
Proof.
  rewrite validator_from_unfold.
  assert (Hlater : forall o self1, validators self1 !! k = Some o ->
            forall self2, rtc (session_step opts) self1 self2 ->
            forall src2, validator_from opts src2 k self2 = Return (VObject o) self2).
  { intros o self1 Hc self2 Hsteps src2. rewrite validator_from_unfold.
    apply validator_for_cached. by eapply session_steps_keep_cache. }
  destruct (validators self0 !! k) as [o|] eqn:Hc.
  - exists o, self0. split; [by apply validator_for_cached|].
    split; [discriminate|]. by apply Hlater.
  - exists (List.length (objs self0)),
      (with_new_validator (getter_of opts src1) (type_of src1) k self0).
    split; [by apply validator_for_fresh|]. split; [reflexivity|].
    apply Hlater. simpl. apply lookup_insert_eq.
Qed.

Lemma same_name_same_validator_witness :
  let r := {| params := {["id" := VString "7"]};
              query := {["id" := VString "oops"]}; body := ∅ |} in
  exists o self1,
    validator_from default_opts Param "id" (new_session r)
    = Return (VObject o) self1 /\
    get (session_vals self1) "id" = VString "7" /\
    let self2 :=
      state_of (call (VObject o)
                  (@toInt Sample.number_to_string Sample.validator_package VUndefined)
                  self1) in
    get (session_vals self2) "id" = VNumber (number_of_Z 7) /\
    validator_from default_opts Query "id" self2 = Return (VObject o) self2.
Proof.
  intros r.
  destruct (same_name_same_validator default_opts Param "id" (new_session r))
    as (o & self1 & Hfirst & Hseed & Hlater).
  exists o, self1. split; [exact Hfirst|].
  assert (Ho : o = 0%nat).
  { rewrite validator_from_unfold, validator_for_fresh in Hfirst by reflexivity.
    by injection Hfirst. }
  split; [rewrite (Hseed eq_refl); reflexivity|].
  split; [rewrite (Hseed eq_refl), Ho; reflexivity|].
  apply Hlater, rtc_once. constructor.
Defined.

(** *** Format validators and the type of the value *)

Lemma append_not_empty (k t : string) :
  t <> "" -> String.eqb (k +:+ t) "" = false.
Proof.
  intros Ht. destruct k; simpl; [|reflexivity].
  destruct t; [contradiction | reflexivity].
Qed.

Lemma js_or_string (t : string) (d : value) :
  t <> "" -> js_or (VString t) d = VString t.
Proof.
  intros Ht. unfold js_or. simpl.
  destruct (String.eqb_spec t ""); [contradiction | reflexivity].
Qed.

(** [isString] on a value that is not a string, outside the optional-skip
    state: a ValidationError for this name, carrying [tip] when it is
    truthy. *)
Lemma isString_rejects (tip : value) (s : state) :
  skipping s = false ->
  _isString (val s) = false ->
  exists msg,
    isString tip s
    = Throw (EValidation (ValidationError (VString (key (this s))) msg))
        (set_isOptional false s).
Proof.
  intros Hs Hn. unfold isString. rewrite (optionalFn_run _ s Hs).
  unfold isString_fn. run. rewrite val_set_isOptional, Hn. simpl.
  unfold throwError. simpl. eauto.
Qed.

Lemma skipping_cleared (s : state) : skipping (set_isOptional false s) = false.
Proof. reflexivity. Qed.

(** The six format validators that call [isString] first raise a
    ValidationError on a value that is not a string. *)
Lemma string_first_validators `{NumberToString} `{ValidatorPackage}
    (tip : value) (s : state) :
  skipping s = false ->
  _isString (val s) = false ->
  Forall (fun m : M value =>
            exists e s', m s = Throw (EValidation e) s' /\ vals s' = vals s)
    [isAlpha tip; isAlphanumeric tip; isNumeric tip; isBase64 tip;
     isEmail tip; isHexColor tip].
Proof.
  intros Hs Hn.
  assert (Hinner : forall t, exists msg,
            isString t (set_isOptional false s)
            = Throw (EValidation (ValidationError (VString (key (this s))) msg))
                (set_isOptional false s)).
  { intros t.
    destruct (isString_rejects t (set_isOptional false s) (skipping_cleared s) Hn)
      as [msg Hmsg].
    exists msg. exact Hmsg. }
  unfold isAlpha, isAlphanumeric, isNumeric, isBase64, isEmail, isHexColor.
  repeat constructor.
  all: rewrite (optionalFn_run _ s Hs).
  all: unfold isAlpha_fn, isAlphanumeric_fn, isNumeric_fn, isBase64_fn,
         isEmail_fn, isHexColor_fn.
  all: unfold mbind, Eff_bind, get_key, return_this, gets; simpl.
  all: match goal with
       | |- context [isString ?t (set_isOptional false _)] =>
           destruct (Hinner t) as [msg ->]
       end.
  all: eauto.
Qed.

(** C8, at the two methods that miss the call. [isAscii] and [isUuid] do
    not call [isString]: a boolean passes [isAscii], and an array holding
    one UUID passes [isUuid], neither of them raising. *)
Theorem isAscii_isUuid_take_non_strings `{NumberToString} `{ValidatorPackage} :
  let flag := validator_on "flag" false {["flag" := VBool true]} in
  let ids :=
    validator_on "ids" false
      {["ids" := VArray [VString "550e8400-e29b-41d4-a716-446655440000"]]} in
  (_isString (val flag) = false /\
   isAscii VUndefined flag = Return (this_value flag) flag) /\
  (_isString (val ids) = false /\
   isUuid VUndefined VUndefined ids = Return (this_value ids) ids).
Proof. intros flag ids. split; split; reflexivity. Qed.

(** *** The overloads of [isUuid] *)

Lemma isUuid_run `{NumberToString} (version tip : value) (s : state) :
  skipping s = false ->
  isUuid version tip s = isUuid_fn version tip (set_isOptional false s).
Proof. intros Hs. unfold isUuid. by apply optionalFn_run. Qed.

(** [isUuid] once the overloads are told apart as a version tag found in
    the table and a message that is not empty. *)
Lemma isUuid_tests `{NumberToString} (version tip tip' : value) (tag msg : string)
    (r : pattern) (s : state) :
  skipping s = false ->
  isUuid_arguments version tip = (VString tag, tip') ->
  re tag = Some r ->
  js_or tip'
    (VString (key (this s) +:+ " must be a UUID"
                +:+ (if negb (String.eqb tag "all") then tag else "")))
  = VString msg ->
  msg <> "" ->
  tests_against r (VString msg) (isUuid version tip) s.
Proof.
  intros Hs Hargs Hre Hmsg Hne. unfold tests_against.
  rewrite (isUuid_run _ _ _ Hs). unfold isUuid_fn. rewrite Hargs.
  run. rewrite Hmsg, Hre. simpl. rewrite val_set_isOptional.
  destruct (test r (val s)); simpl; [reflexivity|].
  unfold throwError. simpl. by rewrite js_or_string.
Qed.

Lemma isUuid_arguments_custom (custom : string) :
  ~ In custom version_tags ->
  isUuid_arguments (VString custom) VUndefined = (VString "all", VString custom).
Proof.
  intros Hn. unfold isUuid_arguments, _contains, version_tags. simpl.
  repeat match goal with
         | |- context [String.eqb custom ?t] =>
             destruct (String.eqb_spec custom t) as [->|_];
               [exfalso; apply Hn; simpl; tauto|]
         end.
  reflexivity.
Qed.

(** C7, as the code has it. Outside the optional-skip state: [isUuid()]
    tests the value against the any-version pattern; [isUuid(tag)] with
    one of the four version tags tests it against the pattern of that tag;
    [isUuid(custom)] with a string that is not a tag and is not empty
    tests it against the any-version pattern and fails with [custom] as
    the message. *)
Theorem isUuid_overloads `{NumberToString} (s : state) :
  skipping s = false ->
  let k := key (this s) in
  tests_against re_all (VString (k +:+ " must be a UUID"))
    (isUuid VUndefined VUndefined) s /\
  (tests_against re_v3 (VString (k +:+ " must be a UUIDv3"))
     (isUuid (VString "v3") VUndefined) s /\
   tests_against re_v4 (VString (k +:+ " must be a UUIDv4"))
     (isUuid (VString "v4") VUndefined) s /\
   tests_against re_v5 (VString (k +:+ " must be a UUIDv5"))
     (isUuid (VString "v5") VUndefined) s /\
   tests_against re_all (VString (k +:+ " must be a UUID"))
     (isUuid (VString "all") VUndefined) s) /\
  (forall custom : string,
     ~ In custom version_tags -> custom <> "" ->
     tests_against re_all (VString custom) (isUuid (VString custom) VUndefined) s).
Proof.
  intros Hs k.
  assert (Hdefault : forall t : string,
            js_or VUndefined (VString (k +:+ " must be a UUID" +:+ t))
            = VString (k +:+ " must be a UUID" +:+ t)) by reflexivity.
  assert (Hne : forall t : string, k +:+ " must be a UUID" +:+ t <> "").
  { intros t Heq. destruct k; discriminate. }
  split; [|split; [repeat split|]].
  - apply (isUuid_tests VUndefined VUndefined VUndefined "all" _ re_all s Hs);
      [reflexivity | reflexivity | apply (Hdefault "") | apply Hne].
  - apply (isUuid_tests (VString "v3") VUndefined VUndefined "v3" _ re_v3 s Hs);
      [reflexivity | reflexivity | apply (Hdefault "v3") | apply Hne].
  - apply (isUuid_tests (VString "v4") VUndefined VUndefined "v4" _ re_v4 s Hs);
      [reflexivity | reflexivity | apply (Hdefault "v4") | apply Hne].
  - apply (isUuid_tests (VString "v5") VUndefined VUndefined "v5" _ re_v5 s Hs);
      [reflexivity | reflexivity | apply (Hdefault "v5") | apply Hne].
  - apply (isUuid_tests (VString "all") VUndefined VUndefined "all" _ re_all s Hs);
      [reflexivity | reflexivity | apply (Hdefault "") | apply Hne].
  - intros custom Hn Hc.
    apply (isUuid_tests (VString custom) VUndefined (VString custom) "all" custom
             re_all s Hs);
      [by apply isUuid_arguments_custom | reflexivity
      | by apply js_or_string | assumption].
Qed.

Lemma isUuid_overloads_witness :
  let s := validator_on "id" false {["id" := VString "not-a-uuid"]} in
  let isUuid' := @isUuid Sample.number_to_string in
  let tests := @tests_against Sample.number_to_string in
  tests re_all (VString "id must be a UUID") (isUuid' VUndefined VUndefined) s /\
  (tests re_v3 (VString "id must be a UUIDv3") (isUuid' (VString "v3") VUndefined) s /\
   tests re_v4 (VString "id must be a UUIDv4") (isUuid' (VString "v4") VUndefined) s /\
   tests re_v5 (VString "id must be a UUIDv5") (isUuid' (VString "v5") VUndefined) s /\
   tests re_all (VString "id must be a UUID") (isUuid' (VString "all") VUndefined) s) /\
  (forall custom : string,
     ~ In custom version_tags -> custom <> "" ->
     tests re_all (VString custom) (isUuid' (VString custom) VUndefined) s).
Proof.
  intros s isUuid' tests.
  apply (@isUuid_overloads Sample.number_to_string s). reflexivity.
Defined.

(** C7 as claimed fails at the empty string: it is not a version tag, and
    the failure does not carry it as the message but the default one. *)
Lemma isUuid_empty_argument_counterexample :
  let s := validator_on "id" false {["id" := VString "not-a-uuid"]} in
  ~ In "" version_tags /\
  @isUuid Sample.number_to_string (VString "") VUndefined s
  = Throw (EValidation
             (ValidationError (VString "id") (VString "id must be a UUID"))) s /\
  ~ @tests_against Sample.number_to_string re_all (VString "")
      (@isUuid Sample.number_to_string (VString "") VUndefined) s.
Proof.
  intros s. split; [|split].
  - simpl. intros [H|[H|[H|[H|[]]]]]; discriminate.
  - reflexivity.
  - unfold tests_against. intros Hc. vm_compute in Hc. discriminate.
Qed.

(** * Further properties of the methods *)

(** *** [required] and [optional] *)

(** A wrapped method wrapped again is the wrapped method: the calls
    of [this.isString] made from inside a registered method behave as
    [isString] itself. *)
Theorem optionalFn_twice (fn : M value) (s : state) :
  optionalFn (optionalFn fn) s = optionalFn fn s.
Proof.
  destruct (skipping s) eqn:Hs.
  - by rewrite !optionalFn_skip.
  - rewrite (optionalFn_run (optionalFn fn) s Hs), (optionalFn_run fn s Hs).
    rewrite optionalFn_run by reflexivity. reflexivity.
Qed.

(** [required] is not behind the optional guard: on an absent value it
    raises, with the tip when it is truthy and its own message otherwise,
    even right after [optional] has armed the flag. *)
Theorem required_after_optional_raises (tip : value) (s : state) :
  val s = VUndefined ->
  (optional;; required tip) s
  = Throw (EValidation
             (ValidationError (VString (key (this s)))
                (if truthy tip then tip
                 else VString (key (this s) +:+ " must not be empty"))))
      (set_isOptional true s).
Proof.
  intros Hv. unfold mbind, Eff_bind. rewrite (optional_arms s Hv).
  unfold required. run. rewrite val_set_isOptional, Hv. simpl.
  unfold throwError, js_or. simpl.
  destruct (truthy tip) eqn:Ht; [by rewrite Ht|].
  unfold truthy. rewrite append_not_empty by discriminate. reflexivity.
Qed.

Lemma required_after_optional_raises_witness :
  let s := validator_on "email" false ∅ in
  (optional;; required VUndefined) s
  = Throw (EValidation
             (ValidationError (VString "email")
                (VString "email must not be empty")))
      (set_isOptional true s).
Proof.
  intros s. apply (required_after_optional_raises VUndefined s). reflexivity.
Defined.

Lemma chain_skipped (fns : list (M value)) (s : state) :
  skipping s = true ->
  chain (map optionalFn fns) s = Return (this_value s) s.
Proof.
  intros Hs. induction fns as [|fn fns IH]; simpl; [reflexivity|].
  unfold mbind, Eff_bind. by rewrite (optionalFn_skip fn s Hs).
Qed.

(** On an absent value, [optional] followed by registered methods, however
    many and whatever they are, returns without raising and leaves the
    store as it was; none of the methods runs. *)
Theorem optional_then_any_chain_is_skipped (fns : list (M value)) (s : state) :
  val s = VUndefined ->
  chain (optional :: map optionalFn fns) s
  = Return (this_value s) (set_isOptional true s).
Proof.
  intros Hv. simpl. unfold mbind, Eff_bind. rewrite (optional_arms s Hv).
  apply (chain_skipped fns (set_isOptional true s)). by apply skipping_armed.
Qed.

Lemma optional_then_any_chain_is_skipped_witness :
  let s := validator_on "n" false ∅ in
  chain [optional; gt (VNumber (number_of_Z 5)) VUndefined;
         isString VUndefined; tap (AFun (fun _ => throw ETypeError))] s
  = Return (this_value s) (set_isOptional true s).
Proof.
  intros s.
  apply (optional_then_any_chain_is_skipped
           [gt_fn (VNumber (number_of_Z 5)) VUndefined;
            isString_fn VUndefined;
            tap_fn (AFun (fun _ => throw ETypeError))] s).
  reflexivity.
Defined.

(** *** Conversions that always succeed *)

Lemma set_val_twice (x y : value) (s : state) :
  set_val x (set_val y s) = set_val x s.
Proof. unfold set_val. simpl. by rewrite insert_insert_eq. Qed.

Lemma set_val_present (s : state) : val s <> VUndefined -> set_val (val s) s = s.
Proof.
  intros Hv. destruct s as [v m]. unfold set_val, val, get in *. simpl in *.
  destruct (m !! key v) as [x|] eqn:Hx; simpl in *; [|contradiction].
  by rewrite insert_id.
Qed.

Lemma skipping_set_val (x : value) (s : state) :
  _isOptional (this s) = false -> skipping (set_val x s) = false.
Proof. intros Ho. unfold skipping. simpl. by rewrite Ho. Qed.

(** [defaultTo] fills an absent value and nothing else: on a present value
    the store stays as it is and a function given as default is not
    called; on an absent one (the flag not being set) the default is
    written; either way a [required] that follows a default other than
    [undefined] passes. *)
Theorem defaultTo_fills_absent_only (d : value) (f : list value -> M value)
    (tip : value) (s : state) :
  (val s <> VUndefined ->
   defaultTo (AFun f) s = Return (this_value s) (set_isOptional false s) /\
   defaultTo (AVal d) s = Return (this_value s) (set_isOptional false s)) /\
  (val s = VUndefined -> _isOptional (this s) = false ->
   defaultTo (AVal d) s = Return (this_value s) (set_val d s) /\
   (d <> VUndefined ->
    (defaultTo (AVal d);; required tip) s = Return (this_value s) (set_val d s))).
Proof.
  split.
  - intros Hv.
    assert (Hs : skipping s = false) by (by apply not_skipping_present).
    unfold defaultTo. rewrite !(optionalFn_run _ s Hs).
    unfold defaultTo_fn. run. rewrite val_set_isOptional.
    destruct (_isUndefined (val s)) eqn:Hu.
    { apply _isUndefined_spec in Hu. contradiction. }
    simpl. change (val s) with (val (set_isOptional false s)).
    rewrite set_val_present by (by rewrite val_set_isOptional). auto.
  - intros Hv Ho.
    assert (Hs : skipping s = false) by (unfold skipping; by rewrite Ho).
    assert (Hd : defaultTo (AVal d) s = Return (this_value s) (set_val d s)).
    { unfold defaultTo. rewrite (optionalFn_run _ s Hs).
      rewrite (set_isOptional_same s Ho).
      unfold defaultTo_fn. run. rewrite Hv. reflexivity. }
    split; [exact Hd|]. intros Hne.
    unfold mbind, Eff_bind. rewrite Hd.
    rewrite required_present by (by rewrite val_set_val). reflexivity.
Qed.

Lemma defaultTo_fills_absent_only_witness :
  let absent := validator_on "page" false ∅ in
  let one := VNumber (number_of_Z 1) in
  defaultTo (AVal one) absent = Return (this_value absent) (set_val one absent) /\
  (defaultTo (AVal one);; required VUndefined) absent
  = Return (this_value absent) (set_val one absent).
Proof.
  intros absent one.
  destruct (defaultTo_fills_absent_only one (fun _ => throw ETypeError)
              VUndefined absent) as [_ Habsent].
  destruct Habsent as [Hd Hr]; [reflexivity | reflexivity |].
  split; [exact Hd | apply Hr; discriminate].
Defined.

(** Outside the optional-skip state [toArray] always returns and leaves an
    array: the empty one for an absent value, the value itself when it is
    an array, the one-item array of the value otherwise.  A second
    [toArray] changes nothing. *)
Theorem toArray_leaves_an_array (s : state) :
  skipping s = false ->
  exists items,
    toArray s = Return (this_value s) (set_val (VArray items) (set_isOptional false s)) /\
    items = match val s with
            | VUndefined => []
            | VArray l => l
            | x => [x]
            end /\
    (toArray;; toArray) s = toArray s.
Proof.
  intros Hs.
  assert (Hone : forall s0, skipping s0 = false ->
            toArray s0
            = Return (this_value s0)
                (set_val (VArray match val s0 with
                                 | VUndefined => []
                                 | VArray l => l
                                 | x => [x]
                                 end) (set_isOptional false s0))).
  { intros s0 Hs0. unfold toArray. rewrite (optionalFn_run _ s0 Hs0).
    unfold toArray_fn. run. rewrite val_set_isOptional.
    destruct (val s0); reflexivity. }
  eexists. split; [apply (Hone s Hs)|]. split; [reflexivity|].
  unfold mbind, Eff_bind. rewrite (Hone s Hs).
  rewrite Hone by (by apply skipping_set_val).
  rewrite val_set_val. simpl.
  rewrite (set_isOptional_same (set_val _ _)) by reflexivity.
  by rewrite set_val_twice.
Qed.

Lemma toArray_leaves_an_array_witness :
  let s := validator_on "tags" false {["tags" := VString "a"]} in
  exists items,
    toArray s = Return (this_value s) (set_val (VArray items) (set_isOptional false s)) /\
    items = [VString "a"] /\
    (toArray;; toArray) s = toArray s.
Proof. intros s. apply (toArray_leaves_an_array s). reflexivity. Defined.

(** Outside the optional-skip state [toBoolean] always returns and leaves
    the boolean the value counts as; a second [toBoolean] changes nothing.
    After [optional] on an absent value it is skipped: the value stays
    absent instead of becoming [false]. *)
Theorem toBoolean_leaves_a_boolean (s : state) :
  (skipping s = false ->
   toBoolean s
   = Return (this_value s) (set_val (VBool (truthy (val s))) (set_isOptional false s)) /\
   (toBoolean;; toBoolean) s = toBoolean s) /\
  (val s = VUndefined ->
   toBoolean (set_isOptional false s)
   = Return (this_value s) (set_val (VBool false) (set_isOptional false s)) /\
   (optional;; toBoolean) s = Return (this_value s) (set_isOptional true s)).
Proof.
  assert (Hone : forall s0, skipping s0 = false ->
            toBoolean s0
            = Return (this_value s0)
                (set_val (VBool (truthy (val s0))) (set_isOptional false s0))).
  { intros s0 Hs0. unfold toBoolean. by rewrite (optionalFn_run _ s0 Hs0). }
  split.
  - intros Hs. split; [by apply Hone|].
    unfold mbind, Eff_bind. rewrite (Hone s Hs).
    rewrite Hone by (by apply skipping_set_val).
    rewrite val_set_val. simpl.
    rewrite (set_isOptional_same (set_val _ _)) by reflexivity.
    by rewrite set_val_twice.
  - intros Hv. split.
    + rewrite Hone by reflexivity. rewrite val_set_isOptional, Hv. reflexivity.
    + unfold mbind, Eff_bind. rewrite (optional_arms s Hv).
      unfold toBoolean. rewrite optionalFn_skip by (by apply skipping_armed).
      reflexivity.
Qed.

Lemma toBoolean_leaves_a_boolean_witness :
  let s := validator_on "remember" false {["remember" := VString "on"]} in
  let absent := validator_on "remember" false ∅ in
  toBoolean s = Return (this_value s) (set_val (VBool true) s) /\
  (optional;; toBoolean) absent = Return (this_value absent) (set_isOptional true absent).
Proof.
  intros s absent. split.
  - destruct (toBoolean_leaves_a_boolean s) as [[Hs _] _]; [reflexivity | exact Hs].
  - destruct (toBoolean_leaves_a_boolean absent) as [_ [_ Ha]];
      [reflexivity | exact Ha].
Defined.

Lemma toString_value `{NumberToString} (x : value) :
  js_or (js_and x (VString (ToString x))) (VString "")
  = VString (if truthy x then ToString x else "").
Proof.
  unfold js_or, js_and. destruct (truthy x) eqn:Hx.
  - simpl. destruct (String.eqb_spec (ToString x) "") as [->|]; reflexivity.
  - by rewrite Hx.
Qed.

(** Outside the optional-skip state [toString] always returns and leaves a
    string: the empty one for every falsy value (absent, [null], [false],
    zero, [NaN], the empty string), the conversion of the value otherwise.
    A second [toString] changes nothing and [isString] passes after it. *)
Theorem toString_leaves_a_string `{NumberToString} (tip : value) (s : state) :
  skipping s = false ->
  toString s
  = Return (this_value s)
      (set_val (VString (if truthy (val s) then ToString (val s) else ""))
         (set_isOptional false s)) /\
  (toString;; toString) s = toString s /\
  (toString;; isString tip) s = toString s.
Proof.
  intros Hs.
  assert (Hone : forall s0, skipping s0 = false ->
            toString s0
            = Return (this_value s0)
                (set_val (VString (if truthy (val s0) then ToString (val s0) else ""))
                   (set_isOptional false s0))).
  { intros s0 Hs0. unfold toString. rewrite (optionalFn_run _ s0 Hs0).
    unfold toString_fn. run. rewrite val_set_isOptional.
    by rewrite toString_value. }
  split; [by apply Hone|]. split.
  - unfold mbind, Eff_bind. rewrite (Hone s Hs).
    rewrite Hone by (by apply skipping_set_val).
    rewrite val_set_val.
    rewrite (set_isOptional_same (set_val _ _)) by reflexivity.
    rewrite set_val_twice. simpl.
    destruct (String.eqb_spec (if truthy (val s) then ToString (val s) else "") "")
      as [->|]; reflexivity.
  - unfold mbind, Eff_bind. rewrite (Hone s Hs).
    unfold isString. rewrite optionalFn_run by (by apply skipping_set_val).
    unfold isString_fn. run. rewrite val_set_isOptional, val_set_val. simpl.
    by rewrite (set_isOptional_same (set_val _ _)).
Qed.

Lemma toString_leaves_a_string_witness :
  let s := validator_on "n" false {["n" := VNumber (number_of_Z 0)]} in
  @toString Sample.number_to_string s
  = Return (this_value s) (set_val (VString "") s) /\
  (@toString Sample.number_to_string;; @toString Sample.number_to_string) s
  = @toString Sample.number_to_string s /\
  (@toString Sample.number_to_string;; isString VUndefined) s
  = @toString Sample.number_to_string s.
Proof.
  intros s.
  apply (@toString_leaves_a_string Sample.number_to_string VUndefined s).
  reflexivity.
Defined.

(** *** [trim] *)

Lemma trim_end_twice (t : string) : trim_end (trim_end t) = trim_end t.
Proof.
  induction t as [|c t IH]; simpl; [reflexivity|].
  destruct (is_white_space c && String.eqb (trim_end t) "") eqn:Hc;
    simpl; [reflexivity|].
  by rewrite IH, Hc.
Qed.

Lemma skip_white_space_starts_clean (t : string) :
  match skip_white_space t with
  | String c _ => is_white_space c = false
  | EmptyString => True
  end.
Proof.
  induction t as [|c t IH]; simpl; [exact I|].
  destruct (is_white_space c) eqn:Hc; [exact IH | exact Hc].
Qed.

Lemma trim_string_starts_clean (t : string) :
  skip_white_space (trim_string t) = trim_string t.
Proof.
  unfold trim_string. pose proof (skip_white_space_starts_clean t) as Hc.
  destruct (skip_white_space t) as [|c r]; simpl; [reflexivity|].
  rewrite Hc. simpl. by rewrite Hc.
Qed.

Lemma trim_string_twice (t : string) : trim_string (trim_string t) = trim_string t.
Proof.
  unfold trim_string at 1. rewrite trim_string_starts_clean.
  unfold trim_string. apply trim_end_twice.
Qed.

(** [trim] on a string leaves it without white space at either end and a
    second [trim] changes nothing; on a value that is not a string
    (outside the optional-skip state) it raises the assertion error and
    leaves the store as it was. *)
Theorem trim_strips_both_ends (s : state) :
  (forall t, val s = VString t ->
     trim s
     = Return (this_value s) (set_val (VString (trim_string t)) (set_isOptional false s)) /\
     skip_white_space (trim_string t) = trim_string t /\
     trim_end (trim_string t) = trim_string t /\
     (trim;; trim) s = trim s) /\
  (skipping s = false -> _isString (val s) = false ->
   trim s = Throw EAssertion (set_isOptional false s)).
Proof.
  assert (Hone : forall s0 t, val s0 = VString t ->
            trim s0
            = Return (this_value s0)
                (set_val (VString (trim_string t)) (set_isOptional false s0))).
  { intros s0 t Hv. unfold trim.
    rewrite optionalFn_run by (apply not_skipping_present; rewrite Hv; discriminate).
    unfold trim_fn. run. do 2 (rewrite !val_set_isOptional, Hv; simpl).
    reflexivity. }
  split.
  - intros t Hv. split; [by apply Hone|].
    split; [apply trim_string_starts_clean|].
    split; [apply trim_end_twice|].
    unfold mbind, Eff_bind. rewrite (Hone s t Hv).
    rewrite (Hone _ (trim_string t)) by apply val_set_val.
    rewrite trim_string_twice.
    rewrite (set_isOptional_same (set_val _ _)) by reflexivity.
    by rewrite set_val_twice.
  - intros Hs Hn. unfold trim. rewrite (optionalFn_run _ s Hs).
    unfold trim_fn. run. by rewrite val_set_isOptional, Hn.
Qed.

Lemma trim_strips_both_ends_witness :
  let s := validator_on "name" false {["name" := VString "  ada lovelace "]} in
  let n := validator_on "name" false {["name" := VNumber (number_of_Z 7)]} in
  trim s = Return (this_value s) (set_val (VString "ada lovelace") s) /\
  trim n = Throw EAssertion n.
Proof.
  intros s n. split.
  - destruct (trim_strips_both_ends s) as [Hs _].
    destruct (Hs "  ada lovelace " eq_refl) as [Ht _]. exact Ht.
  - destruct (trim_strips_both_ends n) as [_ Hn]. apply Hn; reflexivity.
Defined.

(** *** Comparisons *)

Lemma SFcompare_swap (a b : number) :
  SFcompare b a = option_map CompOpp (SFcompare a b).
Proof.
  destruct a as [sa|sa| |sa ma ea], b as [sb|sb| |sb mb eb]; simpl;
    try reflexivity;
    try (destruct sa; reflexivity); try (destruct sb; reflexivity);
    try (destruct sa, sb; reflexivity).
  pose proof (Pos.compare_cont_antisym ma mb Eq) as Hm. simpl in Hm.
  destruct sa, sb; simpl; try reflexivity;
    rewrite (Z.compare_antisym ea eb);
    destruct (ea ?= eb)%Z; simpl; try reflexivity;
    rewrite <- Hm; try reflexivity; by rewrite CompOpp_involutive.
Qed.

Lemma num_le_not_lt (a b : number) :
  a <> NaN -> b <> NaN -> num_le a b = negb (num_lt b a).
Proof.
  intros Ha Hb. unfold num_le, num_lt, SFleb, SFltb.
  rewrite (SFcompare_swap a b).
  destruct (SFcompare a b) as [[| |]|] eqn:Hc; simpl; try reflexivity.
  destruct a, b; simpl in Hc; try discriminate; unfold NaN in *; congruence.
Qed.

Lemma comparison_run (fn : M value) (s : state) (a : number) :
  val s = VNumber a -> optionalFn fn s = fn (set_isOptional false s).
Proof.
  intros Hv. apply optionalFn_run, not_skipping_present. rewrite Hv. discriminate.
Qed.

(** What the four comparisons do on a number [a] with a number [b] as
    operand: they raise a ValidationError when the test of the source
    holds and return otherwise. *)
Lemma comparisons_on_numbers (a b : number) (tip : value) (s : state) :
  val s = VNumber a ->
  let ok := Return (this_value s) (set_isOptional false s) in
  let ko := Throw (EValidation
                     (ValidationError (VString (key (this s)))
                        (js_or (js_or tip (VString ("Invalid " +:+ key (this s))))
                           (VString ("Invalid value for " +:+ key (this s))))))
              (set_isOptional false s) in
  gt (VNumber b) tip s = (if num_le a b then ko else ok) /\
  gte (VNumber b) tip s = (if num_lt a b then ko else ok) /\
  lt (VNumber b) tip s = (if num_le b a then ko else ok) /\
  lte (VNumber b) tip s = (if num_lt b a then ko else ok).
Proof.
  intros Hv ok ko. unfold gt, gte, lt, lte.
  rewrite !(comparison_run _ s a Hv).
  unfold gt_fn, gte_fn, lt_fn, lte_fn. run.
  do 2 (rewrite !val_set_isOptional, Hv; simpl).
  repeat split.
  - destruct (num_le a b); reflexivity.
  - destruct (num_lt a b); reflexivity.
  - destruct (num_le b a); reflexivity.
  - destruct (num_lt b a); reflexivity.
Qed.

(** [NaN] is a number, and no comparison with it holds: when the value is
    [NaN], [gt], [gte], [lt] and [lte] all return, whatever the numeric
    operand; the same when the operand is [NaN].  [isFiniteNumber] and
    [isInt] are the checks that raise on it. *)
Theorem NaN_passes_every_comparison (a b : number) (tip : value) (s : state) :
  val s = VNumber a ->
  a = NaN \/ b = NaN ->
  Forall (fun m : M value => m s = Return (this_value s) (set_isOptional false s))
    [gt (VNumber b) tip; gte (VNumber b) tip; lt (VNumber b) tip; lte (VNumber b) tip] /\
  (a = NaN -> raises_validation (isFiniteNumber tip) s /\ raises_validation (isInt tip) s).
Proof.
  intros Hv Hnan.
  destruct (comparisons_on_numbers a b tip s Hv) as (Hgt & Hgte & Hlt & Hlte).
  assert (Hc : num_le a b = false /\ num_lt a b = false /\
               num_le b a = false /\ num_lt b a = false).
  { destruct Hnan as [-> | ->].
    - repeat split; try reflexivity; destruct b; reflexivity.
    - repeat split; try reflexivity; destruct a; reflexivity. }
  destruct Hc as (H1 & H2 & H3 & H4).
  rewrite H1 in Hgt. rewrite H2 in Hgte. rewrite H3 in Hlt. rewrite H4 in Hlte.
  split; [repeat constructor; assumption|].
  intros ->. split.
  - unfold raises_validation, isFiniteNumber. rewrite (comparison_run _ s NaN Hv).
    unfold isFiniteNumber_fn. run. rewrite val_set_isOptional, Hv. simpl.
    unfold throwError. eauto.
  - unfold raises_validation, isInt. rewrite (comparison_run _ s NaN Hv).
    unfold isInt_fn. run. rewrite val_set_isOptional, Hv. simpl.
    unfold throwError. eauto.
Qed.

Lemma NaN_passes_every_comparison_witness :
  let s := validator_on "n" false {["n" := VNumber NaN]} in
  let five := VNumber (number_of_Z 5) in
  Forall (fun m : M value => m s = Return (this_value s) (set_isOptional false s))
    [gt five VUndefined; gte five VUndefined; lt five VUndefined; lte five VUndefined] /\
  (NaN = NaN -> raises_validation (isFiniteNumber VUndefined) s /\
                raises_validation (isInt VUndefined) s).
Proof.
  intros s five.
  apply (NaN_passes_every_comparison NaN (number_of_Z 5) VUndefined s);
    [reflexivity | left; reflexivity].
Defined.

(** For a value and an operand that are numbers other than [NaN], [gt] and
    [lte] are opposite, and so are [gte] and [lt]: of each pair exactly
    one returns and the other raises a ValidationError. *)
Theorem opposite_comparisons (a b : number) (tip : value) (s : state) :
  val s = VNumber a ->
  a <> NaN -> b <> NaN ->
  (returns (gt (VNumber b) tip) s /\ raises_validation (lte (VNumber b) tip) s \/
   raises_validation (gt (VNumber b) tip) s /\ returns (lte (VNumber b) tip) s) /\
  (returns (gte (VNumber b) tip) s /\ raises_validation (lt (VNumber b) tip) s \/
   raises_validation (gte (VNumber b) tip) s /\ returns (lt (VNumber b) tip) s) /\
  ~ (returns (gt (VNumber b) tip) s /\ returns (lte (VNumber b) tip) s) /\
  ~ (returns (gte (VNumber b) tip) s /\ returns (lt (VNumber b) tip) s).
Proof.
  intros Hv Ha Hb.
  destruct (comparisons_on_numbers a b tip s Hv) as (Hgt & Hgte & Hlt & Hlte).
  rewrite (num_le_not_lt a b Ha Hb) in Hgt.
  rewrite (num_le_not_lt b a Hb Ha) in Hlt.
  unfold returns, raises_validation.
  rewrite Hgt, Hgte, Hlt, Hlte.
  destruct (num_lt b a), (num_lt a b); simpl; repeat split;
    try (left; split; eauto; fail); try (right; split; eauto; fail);
    intros [(? & ? & ?) (? & ? & ?)]; discriminate.
Qed.

Lemma opposite_comparisons_witness :
  let s := validator_on "age" false {["age" := VNumber (number_of_Z 18)]} in
  let b := VNumber (number_of_Z 18) in
  (returns (gt b VUndefined) s /\ raises_validation (lte b VUndefined) s \/
   raises_validation (gt b VUndefined) s /\ returns (lte b VUndefined) s) /\
  (returns (gte b VUndefined) s /\ raises_validation (lt b VUndefined) s \/
   raises_validation (gte b VUndefined) s /\ returns (lt b VUndefined) s) /\
  ~ (returns (gt b VUndefined) s /\ returns (lte b VUndefined) s) /\
  ~ (returns (gte b VUndefined) s /\ returns (lt b VUndefined) s).
Proof.
  intros s b.
  apply (opposite_comparisons (number_of_Z 18) (number_of_Z 18) VUndefined s);
    [reflexivity | discriminate | discriminate].
Defined.

(** Outside the optional-skip state a comparison raises the assertion
    error exactly when the value or the operand is not a number; it never
    touches the store. *)
Theorem comparison_asserts_iff_not_numbers (other tip : value) (s : state) :
  skipping s = false ->
  Forall (fun m : M value =>
            ((exists s', m s = Throw EAssertion s') <->
             (_isNumber (val s) = false \/ _isNumber other = false)) /\
            vals (state_of (m s)) = vals s)
    [gt other tip; gte other tip; lt other tip; lte other tip].
Proof.
  intros Hs.
  constructor; [|constructor; [|constructor; [|constructor; [|constructor]]]].
  all: unfold gt, gte, lt, lte; rewrite (optionalFn_run _ s Hs).
  all: unfold gt_fn, gte_fn, lt_fn, lte_fn; run; rewrite !val_set_isOptional.
  all: destruct (_isNumber (val s)) eqn:Hx; simpl;
         [destruct (_isNumber other) eqn:Ho; simpl|].
  all: rewrite ?val_set_isOptional.
  all: repeat match goal with
              | |- context [if ?c then _ else _] => destruct c; simpl
              end.
  all: split; [split|reflexivity].
  all: try (intros [s' Hc]; discriminate).
  all: try (intros [|]; discriminate).
  all: eauto.
Qed.

Lemma comparison_asserts_iff_not_numbers_witness :
  let s := validator_on "age" false {["age" := VString "18"]} in
  Forall (fun m : M value =>
            ((exists s', m s = Throw EAssertion s') <->
             (_isNumber (val s) = false \/ _isNumber (VNumber (number_of_Z 5)) = false)) /\
            vals (state_of (m s)) = vals s)
    [gt (VNumber (number_of_Z 5)) VUndefined; gte (VNumber (number_of_Z 5)) VUndefined;
     lt (VNumber (number_of_Z 5)) VUndefined; lte (VNumber (number_of_Z 5)) VUndefined].
Proof.
  intros s.
  apply (comparison_asserts_iff_not_numbers (VNumber (number_of_Z 5)) VUndefined s).
  reflexivity.
Defined.

(** *** [isLength] *)

(** Outside the optional-skip state, what [isLength] does depends first on
    the kind of value: on an absent value or [null] reading [length]
    throws a TypeError; on a boolean, a number or an object without
    [length] the first assertion fails; on a string or an array, with
    integer bounds in order, it returns or raises a ValidationError.  The
    store is never written. *)
Theorem isLength_by_kind_of_value `{NumberToString} (min max tip : value) (s : state) :
  skipping s = false ->
  (val s = VUndefined \/ val s = VNull ->
   isLength min max tip s = Throw ETypeError (set_isOptional false s)) /\
  ((exists b, val s = VBool b) \/ (exists n, val s = VNumber n) \/
   (exists o, val s = VObject o) ->
   isLength min max tip s = Throw EAssertion (set_isOptional false s)) /\
  (_isString (val s) = true \/ _isArray (val s) = true ->
   Number_isInteger min = true -> Number_isInteger max = true ->
   js_le min max = true ->
   returns (isLength min max tip) s \/ raises_validation (isLength min max tip) s) /\
  vals (state_of (isLength min max tip s)) = vals s.
Proof.
  intros Hs. unfold returns, raises_validation, isLength.
  rewrite (optionalFn_run _ s Hs). unfold isLength_fn. run.
  rewrite !val_set_isOptional.
  split; [|split; [|split]].
  - intros [-> | ->]; reflexivity.
  - intros [[b ->] | [[n ->] | [o ->]]]; reflexivity.
  - intros Hk Hmin Hmax Hle.
    destruct (val s) eqn:Hv; simpl in Hk; destruct Hk as [Hk|Hk];
      try discriminate; simpl; rewrite Hmin, Hmax, Hle; simpl;
      rewrite !val_set_isOptional, Hv; simpl;
      match goal with
      | |- context [if ?c then _ else _] => destruct c; simpl
      end; unfold throwError; eauto.
  - destruct (val s) eqn:Hv; simpl; try reflexivity;
      destruct (Number_isInteger min); simpl; try reflexivity;
      destruct (Number_isInteger max); simpl; try reflexivity;
      destruct (js_le min max); simpl; try reflexivity;
      rewrite !val_set_isOptional, Hv; simpl;
      match goal with
      | |- context [if ?c then _ else _] => destruct c; reflexivity
      end.
Qed.

Lemma isLength_by_kind_of_value_witness :
  let absent := validator_on "name" false ∅ in
  let n := validator_on "name" false {["name" := VNumber (number_of_Z 12345)]} in
  let three := VNumber (number_of_Z 3) in
  let isLength' := @isLength Sample.number_to_string in
  isLength' three three VUndefined absent = Throw ETypeError absent /\
  isLength' three three VUndefined n = Throw EAssertion n.
Proof.
  intros absent n three isLength'. split.
  - destruct (@isLength_by_kind_of_value Sample.number_to_string three three
                VUndefined absent) as [Ha _]; [reflexivity|].
    apply Ha. left. reflexivity.
  - destruct (@isLength_by_kind_of_value Sample.number_to_string three three
                VUndefined n) as [_ [Hn _]]; [reflexivity|].
    apply Hn. right. left. eexists. reflexivity.
Defined.

(** *** [check], [checkNot], [checkPred], [checkNotPred] *)

(** Outside the optional-skip state, of [check(result)] and
    [checkNot(result)] exactly one returns and the other raises a
    ValidationError for this name, carrying the tip when it is truthy and
    the message of [throwError] otherwise. *)
Theorem check_and_checkNot_are_opposite (result tip : value) (s : state) :
  skipping s = false ->
  let ok := Return (this_value s) (set_isOptional false s) in
  let ko := Throw (EValidation
                     (ValidationError (VString (key (this s)))
                        (if truthy tip then tip
                         else VString ("Invalid value for " +:+ key (this s)))))
              (set_isOptional false s) in
  (truthy result = true /\ check result tip s = ok /\ checkNot result tip s = ko) \/
  (truthy result = false /\ check result tip s = ko /\ checkNot result tip s = ok).
Proof.
  intros Hs ok ko. unfold check, checkNot. rewrite !(optionalFn_run _ s Hs).
  unfold check_fn, checkNot_fn. run.
  destruct (truthy result); simpl; [left | right]; repeat split; reflexivity.
Qed.

Lemma check_and_checkNot_are_opposite_witness :
  let s := validator_on "pw" false {["pw" := VString "secret"]} in
  check (VBool false) (VString "too short") s
  = Throw (EValidation (ValidationError (VString "pw") (VString "too short"))) s /\
  checkNot (VBool false) (VString "too short") s = Return (this_value s) s.
Proof.
  intros s.
  destruct (check_and_checkNot_are_opposite (VBool false) (VString "too short") s)
    as [[Ht _] | [_ [Hc Hn]]]; [reflexivity | discriminate |].
  split; [exact Hc | exact Hn].
Defined.

(** [checkPred] and [checkNotPred] call the predicate on the current value
    and let whatever it throws through as it is, a ValidationError
    included (where [tap] replaces it); when the predicate returns,
    exactly one of the two raises a ValidationError for this name. *)
Theorem checkPred_by_cases (p : list value -> M value) (tip : value) (s : state) :
  skipping s = false ->
  match p [val s] (set_isOptional false s) with
  | Throw ex s1 =>
      checkPred (AFun p) tip s = Throw ex s1 /\
      checkNotPred (AFun p) tip s = Throw ex s1
  | Return r s1 =>
      let ok := Return (this_value s1) s1 in
      let ko := Throw (EValidation
                         (ValidationError (VString (key (this s1)))
                            (if truthy tip then tip
                             else VString ("Invalid value for " +:+ key (this s1)))))
                  s1 in
      checkPred (AFun p) tip s = (if truthy r then ok else ko) /\
      checkNotPred (AFun p) tip s = (if truthy r then ko else ok)
  end.
Proof.
  intros Hs. unfold checkPred, checkNotPred. rewrite !(optionalFn_run _ s Hs).
  unfold checkPred_fn, checkNotPred_fn. run. rewrite val_set_isOptional.
  destruct (p [val s] (set_isOptional false s)) as [r s1 | ex s1]; simpl;
    [|split; reflexivity].
  destruct (truthy r); simpl; split; reflexivity.
Qed.

Lemma checkPred_by_cases_witness :
  let s := validator_on "n" false {["n" := VString "a"]} in
  let inner := ValidationError (VString "other") (VString "inner message") in
  checkPred (AFun (fun _ => throw (EValidation inner))) VUndefined s
  = Throw (EValidation inner) s /\
  checkNotPred (AFun (fun _ => throw (EValidation inner))) VUndefined s
  = Throw (EValidation inner) s.
Proof.
  intros s inner.
  apply (checkPred_by_cases (fun _ => throw (EValidation inner)) VUndefined s).
  reflexivity.
Defined.

(** The session-level [validate] and [validateNot]: exactly one of them
    raises, the error has no name ([null]) and carries the tip as it was
    given, without a default; the session is left as it is. *)
Lemma validate_and_validateNot_are_opposite (result tip : value) (self : session) :
  let ok := Return tt self in
  let ko := Throw (EValidation
                     {| err_name := "ValidationError"; err_message := tip;
                        err_bouncer := {| bouncer_key := VNull;
                                          bouncer_message := tip |} |}) self in
  (truthy result = true /\ validate result tip self = ok /\
   validateNot result tip self = ko) \/
  (truthy result = false /\ validate result tip self = ko /\
   validateNot result tip self = ok).
Proof.
  intros ok ko. unfold validate, validateNot, when, throw.
  destruct (truthy result); simpl; [left | right]; repeat split; reflexivity.
Qed.

(** *** Format validators on strings *)

Lemma all_chars_weaken (p q : ascii -> bool) (t : string) :
  (forall c, p c = true -> q c = true) ->
  all_chars p t = true -> all_chars q t = true.
Proof.
  intros Hpq. induction t as [|c t IH]; simpl; [reflexivity|].
  intros [Hc Ht]%andb_prop. by rewrite (Hpq c Hc), IH.
Qed.

Lemma in_range_weaken (lo hi lo' hi' : N) (c : ascii) :
  (lo' <= lo)%N -> (hi <= hi')%N ->
  in_range lo hi c = true -> in_range lo' hi' c = true.
Proof.
  unfold in_range. intros Hlo Hhi [H1 H2]%andb_prop.
  apply N.leb_le in H1, H2. apply andb_true_intro.
  split; apply N.leb_le; lia.
Qed.

Lemma is_alnum_is_ascii (c : ascii) : is_alnum c = true -> is_ascii c = true.
Proof.
  unfold is_alnum, is_alpha, is_digit, is_ascii.
  intros [[H|H]%orb_prop|H]%orb_prop;
    revert H; apply in_range_weaken; lia.
Qed.

(** A validator that calls [isString tip'] and then tests every character
    against a class returns exactly on the strings made of that class. *)
Lemma string_first_returns `{NumberToString} (cls : ascii -> bool)
    (tip' tip'' : value) (s : state) :
  let m : M value :=
    isString tip';; x ← get_val;
    when (negb (test_all cls x)) (throwError tip'');; return_this in
  returns m (set_isOptional false s) <->
  exists t, val s = VString t /\ all_chars cls t = true.
Proof.
  intros m.
  assert (Hm : m (set_isOptional false s)
               = match val s with
                 | VString t =>
                     if all_chars cls t
                     then Return (this_value s) (set_isOptional false s)
                     else throwError tip'' (set_isOptional false s)
                 | _ => isString_fn tip' (set_isOptional false s)
                 end).
  { unfold m, mbind, Eff_bind, isString.
    rewrite (optionalFn_run _ (set_isOptional false s)) by reflexivity.
    unfold isString_fn. run.
    destruct (val s) eqn:Hv; rewrite !val_set_isOptional, Hv; simpl;
      try reflexivity.
    rewrite !val_set_isOptional, Hv. unfold test_all. simpl.
    destruct (all_chars cls s0); reflexivity. }
  unfold returns. rewrite Hm. clear Hm.
  destruct (val s) eqn:Hv;
    try (unfold isString_fn; run; rewrite val_set_isOptional, Hv; simpl;
         split; [intros (a & s' & Hc); discriminate
                | intros (t & Ht & _); discriminate]).
  destruct (all_chars cls s0) eqn:Hc.
  - split; [intros _; eauto | eauto].
  - split; [intros (a & s' & Hr); discriminate
           | intros (t & Ht & Hall); congruence].
Qed.

Lemma format_validators_return `{NumberToString} (tip : value) (s : state) :
  skipping s = false ->
  (returns (isAlpha tip) s <-> exists t, val s = VString t /\ all_chars is_alpha t = true) /\
  (returns (isAlphanumeric tip) s
   <-> exists t, val s = VString t /\ all_chars is_alnum t = true) /\
  (returns (isNumeric tip) s <-> exists t, val s = VString t /\ all_chars is_digit t = true) /\
  (returns (isAscii tip) s <-> all_chars is_ascii (ToString (val s)) = true).
Proof.
  intros Hs. split; [|split; [|split]].
  - unfold returns at 1, isAlpha. rewrite (optionalFn_run _ s Hs).
    pose (t := js_or tip (VString (key (this s) +:+ " must only contain chars a-z"))).
    exact (string_first_returns is_alpha t t s).
  - unfold returns at 1, isAlphanumeric. rewrite (optionalFn_run _ s Hs).
    pose (t := js_or tip
                 (VString (key (this s) +:+ " must must be alphanumeric (a-z, 0-9)"))).
    exact (string_first_returns is_alnum (this_value s) t s).
  - unfold returns at 1, isNumeric. rewrite (optionalFn_run _ s Hs).
    pose (t := js_or tip (VString (key (this s) +:+ " must must only contain numbers"))).
    exact (string_first_returns is_digit t t s).
  - unfold returns, isAscii. rewrite (optionalFn_run _ s Hs).
    unfold isAscii_fn. run. rewrite val_set_isOptional. unfold test_all.
    destruct (all_chars is_ascii (ToString (val s))); simpl.
    + split; eauto.
    + split; [intros (a & s' & Hr); discriminate | discriminate].
Qed.

(** The character classes are nested, and so are the validators: whatever
    [isNumeric] or [isAlpha] lets through, [isAlphanumeric] lets through,
    and whatever [isAlphanumeric] lets through, [isAscii] lets through. *)
Theorem format_validators_are_nested `{NumberToString} (tip tip' : value) (s : state) :
  (returns (isNumeric tip) s -> returns (isAlphanumeric tip') s) /\
  (returns (isAlpha tip) s -> returns (isAlphanumeric tip') s) /\
  (returns (isAlphanumeric tip) s -> returns (isAscii tip') s).
Proof.
  destruct (skipping s) eqn:Hs.
  { unfold returns, isAlphanumeric, isAscii. rewrite !(optionalFn_skip _ s Hs).
    repeat split; eauto. }
  destruct (format_validators_return tip s Hs) as (Ha & Han & Hn & _).
  destruct (format_validators_return tip' s Hs) as (_ & Han' & _ & Hasc').
  split; [|split].
  - intros (t & Hv & Ht)%Hn. apply Han'. exists t. split; [exact Hv|].
    revert Ht. apply all_chars_weaken. intros c Hc. unfold is_alnum.
    rewrite Hc. apply orb_true_r.
  - intros (t & Hv & Ht)%Ha. apply Han'. exists t. split; [exact Hv|].
    revert Ht. apply all_chars_weaken. intros c Hc. unfold is_alnum.
    by rewrite Hc.
  - intros (t & Hv & Ht)%Han. apply Hasc'. rewrite Hv. simpl.
    revert Ht. apply all_chars_weaken, is_alnum_is_ascii.
Qed.

(** The empty string passes [isAlpha], [isAlphanumeric], [isNumeric] and
    [isAscii]: their patterns ask nothing of a string without
    characters. *)
Theorem empty_string_passes_character_checks `{NumberToString} (tip : value) (s : state) :
  val s = VString "" ->
  Forall (fun m : M value => m s = Return (this_value s) (set_isOptional false s))
    [isAlpha tip; isAlphanumeric tip; isNumeric tip; isAscii tip].
Proof.
  intros Hv.
  assert (Hs : skipping s = false).
  { apply not_skipping_present. rewrite Hv. discriminate. }
  constructor; [|constructor; [|constructor; [|constructor; [|constructor]]]].
  all: unfold isAlpha, isAlphanumeric, isNumeric, isAscii;
       rewrite (optionalFn_run _ s Hs).
  all: unfold isAlpha_fn, isAlphanumeric_fn, isNumeric_fn, isAscii_fn, isString,
         isString_fn.
  all: run; do 3 (rewrite ?val_set_isOptional, ?Hv; simpl).
  all: reflexivity.
Qed.

Lemma empty_string_passes_character_checks_witness :
  let s := validator_on "code" false {["code" := VString ""]} in
  Forall (fun m : M value => m s = Return (this_value s) (set_isOptional false s))
    [@isAlpha Sample.number_to_string VUndefined;
     @isAlphanumeric Sample.number_to_string VUndefined;
     @isNumeric Sample.number_to_string VUndefined;
     @isAscii Sample.number_to_string VUndefined].
Proof.
  intros s.
  apply (@empty_string_passes_character_checks Sample.number_to_string VUndefined s).
  reflexivity.
Defined.

Lemma format_validators_are_nested_witness :
  let s := validator_on "pin" false {["pin" := VString "0420"]} in
  returns (@isNumeric Sample.number_to_string VUndefined) s /\
  returns (@isAlphanumeric Sample.number_to_string VUndefined) s /\
  returns (@isAscii Sample.number_to_string VUndefined) s.
Proof.
  intros s.
  destruct (@format_validators_are_nested Sample.number_to_string
              VUndefined VUndefined s) as (Hn & _ & Han).
  assert (Hnum : returns (@isNumeric Sample.number_to_string VUndefined) s).
  { exists (this_value s), s. reflexivity. }
  split; [exact Hnum|]. split; [exact (Hn Hnum) | exact (Han (Hn Hnum))].
Defined.

(** *** The patterns of [isUuid] *)

Lemma matches_weaken (p q : pattern) (t : string) :
  Forall2 (fun f g : ascii -> bool => forall c, f c = true -> g c = true) p q ->
  matches p t = true -> matches q t = true.
Proof.
  intros Hpq. revert t. induction Hpq as [|f g p q Hfg _ IH]; intros t; simpl.
  - trivial.
  - destruct t as [|c t]; [discriminate|].
    intros [Hc Ht]%andb_prop. by rewrite (Hfg c Hc), IH.
Qed.

Lemma matches_at (p : pattern) (t : string) (i : nat) (f : ascii -> bool) :
  matches p t = true -> p !! i = Some f ->
  exists c, String.get i t = Some c /\ f c = true.
Proof.
  revert t i. induction p as [|g p IH]; intros t i Hm Hi; [discriminate|].
  destruct t as [|c t]; simpl in Hm; [discriminate|].
  apply andb_prop in Hm as [Hc Ht].
  destruct i as [|i]; simpl in *.
  - injection Hi as <-. eauto.
  - by apply IH.
Qed.

Lemma is_char_is_hex (d c : ascii) :
  is_hex d = true -> is_char d c = true -> is_hex c = true.
Proof.
  unfold is_char, is_hex, is_digit, in_range.
  intros Hd Hc%N.eqb_eq. by rewrite Hc.
Qed.

Lemma is_89AB_is_hex (c : ascii) : is_89AB c = true -> is_hex c = true.
Proof.
  unfold is_89AB, is_hex, is_digit.
  intros [[H|H]%orb_prop|H]%orb_prop.
  - rewrite (in_range_weaken 56 57 48 57 c) by (lia || assumption). reflexivity.
  - rewrite (in_range_weaken 65 66 65 70 c) by (lia || assumption).
    apply orb_true_iff. left. apply orb_true_r.
  - rewrite (in_range_weaken 97 98 97 102 c) by (lia || assumption).
    apply orb_true_r.
Qed.

Lemma is_char_differ (d d' c : ascii) :
  code d <> code d' -> is_char d c = true -> is_char d' c = true -> False.
Proof. unfold is_char. intros Hne H1%N.eqb_eq H2%N.eqb_eq. congruence. Qed.

Lemma versioned_pattern_is_a_uuid (t : string) :
  matches re_v3 t = true \/ matches re_v4 t = true \/ matches re_v5 t = true ->
  matches re_all t = true.
Proof.
  intros [H | [H | H]]; revert H; apply matches_weaken;
    repeat constructor; auto using is_89AB_is_hex;
    intros c; by apply is_char_is_hex.
Qed.

Lemma versioned_patterns_apart (t : string) :
  ~ (matches re_v3 t = true /\ matches re_v4 t = true) /\
  ~ (matches re_v3 t = true /\ matches re_v5 t = true) /\
  ~ (matches re_v4 t = true /\ matches re_v5 t = true).
Proof.
  repeat split; intros [H1 H2];
    destruct (matches_at _ t 14 _ H1 eq_refl) as (c & Hc & Hf1);
    destruct (matches_at _ t 14 _ H2 eq_refl) as (c' & Hc' & Hf2);
    rewrite Hc in Hc'; injection Hc' as <-;
    by eapply (is_char_differ _ _ c); [|exact Hf1|exact Hf2].
Qed.

Lemma isUuid_returns `{NumberToString} (version : value) (msg : value)
    (r : pattern) (s : state) :
  tests_against r msg (isUuid version VUndefined) s ->
  returns (isUuid version VUndefined) s <-> test r (val s) = true.
Proof.
  unfold tests_against, returns. intros ->.
  destruct (test r (val s)); split; eauto; try discriminate.
  intros (a & s' & Hc). discriminate.
Qed.

(** Outside the optional-skip state, a value that [isUuid('v3')],
    [isUuid('v4')] or [isUuid('v5')] lets through is let through by
    [isUuid()], and no value is let through by two of the three. *)
Theorem isUuid_versions_refine_and_exclude `{NumberToString} (s : state) :
  skipping s = false ->
  let accepts tag := returns (isUuid (VString tag) VUndefined) s in
  (accepts "v3" \/ accepts "v4" \/ accepts "v5" ->
   returns (isUuid VUndefined VUndefined) s) /\
  ~ (accepts "v3" /\ accepts "v4") /\
  ~ (accepts "v3" /\ accepts "v5") /\
  ~ (accepts "v4" /\ accepts "v5").
Proof.
  intros Hs accepts. unfold accepts.
  assert (Hdefault : forall t : string,
            js_or VUndefined (VString (key (this s) +:+ " must be a UUID" +:+ t))
            = VString (key (this s) +:+ " must be a UUID" +:+ t)) by reflexivity.
  assert (Hne : forall t : string, key (this s) +:+ " must be a UUID" +:+ t <> "").
  { intros t Heq. destruct (key (this s)); discriminate. }
  pose proof (isUuid_tests VUndefined VUndefined VUndefined "all" _ re_all s Hs
                eq_refl eq_refl (Hdefault "") (Hne "")) as Hall.
  pose proof (isUuid_tests (VString "v3") VUndefined VUndefined "v3" _ re_v3 s Hs
                eq_refl eq_refl (Hdefault "v3") (Hne "v3")) as H3.
  pose proof (isUuid_tests (VString "v4") VUndefined VUndefined "v4" _ re_v4 s Hs
                eq_refl eq_refl (Hdefault "v4") (Hne "v4")) as H4.
  pose proof (isUuid_tests (VString "v5") VUndefined VUndefined "v5" _ re_v5 s Hs
                eq_refl eq_refl (Hdefault "v5") (Hne "v5")) as H5.
  rewrite (isUuid_returns _ _ _ s Hall), (isUuid_returns _ _ _ s H3),
    (isUuid_returns _ _ _ s H4), (isUuid_returns _ _ _ s H5).
  unfold test. split; [apply versioned_pattern_is_a_uuid|].
  apply versioned_patterns_apart.
Qed.

Lemma isUuid_versions_refine_and_exclude_witness :
  let s := validator_on "id" false
             {["id" := VString "550e8400-e29b-41d4-a716-446655440000"]} in
  let accepts tag := returns (@isUuid Sample.number_to_string (VString tag) VUndefined) s in
  accepts "v4" /\
  returns (@isUuid Sample.number_to_string VUndefined VUndefined) s /\
  ~ (accepts "v3" /\ accepts "v4").
Proof.
  intros s accepts.
  destruct (@isUuid_versions_refine_and_exclude Sample.number_to_string s)
    as (Hall & H34 & _); [reflexivity|].
  assert (H4 : accepts "v4") by (exists (this_value s), s; reflexivity).
  split; [exact H4|]. split; [apply Hall; right; left; exact H4 | exact H34].
Defined.

(** *** [toInt] *)

Lemma safe_is_finite (n : number) :
  isSafeInteger n = true -> Number_isFinite (VNumber n) = true.
Proof. destruct n as [| [|] | |]; simpl; try reflexivity; discriminate. Qed.

(** Outside the optional-skip state [toInt] either writes a number within
    the safe range, after which [isFiniteNumber] passes, or raises a
    ValidationError for this name and leaves the store as it was; it
    throws nothing else. *)
Theorem toInt_commits_or_leaves `{NumberToString} `{ValidatorPackage}
    (tip tip' : value) (s : state) :
  skipping s = false ->
  (exists n,
     toInt tip s = Return (this_value s) (set_val (VNumber n) (set_isOptional false s)) /\
     isSafeInteger n = true /\
     (toInt tip;; isFiniteNumber tip') s = toInt tip s) \/
  (exists e,
     toInt tip s = Throw (EValidation e) (set_isOptional false s) /\
     bouncer_key (err_bouncer e) = VString (key (this s))).
Proof.
  intros Hs.
  destruct (v_isInt (val s) VUndefined) eqn:Hi.
  - destruct (isSafeInteger (parseInt (val s))) eqn:Hsafe.
    + left. exists (parseInt (val s)).
      pose proof (toInt_converts tip s Hs Hi Hsafe) as Hto.
      split; [exact Hto|]. split; [exact Hsafe|].
      unfold mbind, Eff_bind. rewrite Hto.
      unfold isFiniteNumber.
      rewrite optionalFn_run by (by apply skipping_set_val).
      unfold isFiniteNumber_fn. run. rewrite val_set_isOptional, val_set_val.
      rewrite (safe_is_finite _ Hsafe). simpl.
      by rewrite (set_isOptional_same (set_val _ _)).
    + right. unfold toInt. rewrite (optionalFn_run _ s Hs).
      unfold toInt_fn. run. rewrite !val_set_isOptional, Hi. simpl.
      rewrite !val_set_isOptional, Hsafe. simpl.
      unfold throwError. simpl. eauto.
  - right. unfold toInt. rewrite (optionalFn_run _ s Hs).
    unfold toInt_fn. run. rewrite !val_set_isOptional, Hi. simpl.
    unfold throwError. simpl. eauto.
Qed.

Lemma toInt_commits_or_leaves_witness :
  let s := validator_on "page" false {["page" := VString "12abc"]} in
  let toInt' := @toInt Sample.number_to_string Sample.validator_package in
  (exists n,
     toInt' VUndefined s
     = Return (this_value s) (set_val (VNumber n) (set_isOptional false s)) /\
     isSafeInteger n = true /\
     (toInt' VUndefined;; isFiniteNumber VUndefined) s = toInt' VUndefined s) \/
  (exists e,
     toInt' VUndefined s = Throw (EValidation e) (set_isOptional false s) /\
     bouncer_key (err_bouncer e) = VString (key (this s))).
Proof.
  intros s toInt'.
  apply (@toInt_commits_or_leaves Sample.number_to_string Sample.validator_package
           VUndefined VUndefined s).
  reflexivity.
Defined.

Lemma string_first_validators_witness :
  let s := validator_on "n" false {["n" := VNumber (number_of_Z 7)]} in
  Forall (fun m : M value =>
            exists e s', m s = Throw (EValidation e) s' /\ vals s' = vals s)
    [@isAlpha Sample.number_to_string VUndefined;
     @isAlphanumeric Sample.number_to_string VUndefined;
     @isNumeric Sample.number_to_string VUndefined;
     @isBase64 Sample.validator_package VUndefined;
     @isEmail Sample.validator_package VUndefined;
     @isHexColor Sample.validator_package VUndefined].
Proof.
  intros s.
  apply (@string_first_validators Sample.number_to_string Sample.validator_package
           VUndefined s); reflexivity.
Defined.

(** *** Methods keep to their own entry *)

Section OwnEntry.

Context `{NumberToString} `{ValidatorPackage}.

Lemma own_mret {A} (a : A) : writes_own_entry_only (mret a : M A).
Proof. intros s. simpl. auto. Qed.

Lemma own_gets {A} (f : state -> A) : writes_own_entry_only (gets f).
Proof. intros s. simpl. auto. Qed.



Lemma own_set_val (x : value) : writes_own_entry_only (modify (set_val x)).
Proof.
  intros s. simpl. repeat split. intros k' Hk'.
  by rewrite lookup_insert_ne.
Qed.

Lemma own_set_isOptional (b : bool) : writes_own_entry_only (modify (set_isOptional b)).
Proof. intros s. simpl. auto. Qed.

Lemma own_bind {A B} (m : M A) (k : A -> M B) :
  writes_own_entry_only m -> (forall a, writes_own_entry_only (k a)) ->
  writes_own_entry_only (m ≫= k).
Proof.
  intros Hm Hk s. specialize (Hm s). unfold mbind, Eff_bind. simpl in *.
  destruct (m s) as [a s1 | ex s1]; simpl in *; [|exact Hm].
  destruct Hm as (Ho & Hkey & Hvals).
  destruct (Hk a s1) as (Ho' & Hkey' & Hvals').
  split; [congruence|]. split; [congruence|].
  intros k' Hk'. rewrite Hvals' by congruence. by apply Hvals.
Qed.

Lemma own_when (c : bool) (body : M unit) :
  writes_own_entry_only body -> writes_own_entry_only (when c body).
Proof. intros Hb. destruct c; [exact Hb | apply own_mret]. Qed.



Lemma own_isOptional : writes_own_entry_only isOptional.
Proof.
  unfold isOptional, get_isOptional, get_val.
  repeat first [apply own_bind; [|intros ?] | apply own_gets | apply own_when
               | apply own_set_isOptional].
Qed.

Lemma own_optionalFn (fn : M value) :
  writes_own_entry_only fn -> writes_own_entry_only (optionalFn fn).
Proof.
  intros Hfn. unfold optionalFn. apply own_bind; [apply own_isOptional|].
  intros [|]; [apply own_gets | exact Hfn].
Qed.


End OwnEntry.

(** *** One Validator per name *)

Lemma new_session_consistent (r : Request) : cache_consistent (new_session r).
Proof. intros k o Hc. simpl in Hc. by rewrite lookup_empty in Hc. Qed.

Lemma lookup_keeps_consistent (opts : Opts) (src : source) (k : string)
    (self : session) :
  cache_consistent self ->
  cache_consistent (state_of (validator_from opts src k self)).
Proof.
  intros Hc. rewrite validator_from_unfold.
  destruct (validators self !! k) as [o|] eqn:Hk.
  - by rewrite (validator_for_cached _ _ _ o).
  - rewrite validator_for_fresh by assumption. simpl.
    intros k' o' Hk'. simpl in *.
    destruct (decide (k = k')) as [<-|Hne].
    + rewrite lookup_insert_eq in Hk'. injection Hk' as <-.
      exists {| oid := List.length (objs self); key := k; type := type_of src;
                _isOptional := false |}.
      split; [|split; reflexivity].
      rewrite lookup_app_r by reflexivity. by rewrite Nat.sub_diag.
    + rewrite lookup_insert_ne in Hk' by assumption.
      destruct (Hc k' o' Hk') as (v & Hv & Hkey & Hoid).
      exists v. split; [|auto]. by apply lookup_app_l_Some.
Qed.

Lemma call_keeps_consistent (receiver : value) (m : M value) (self : session) :
  writes_own_entry_only m ->
  cache_consistent self ->
  cache_consistent (state_of (call receiver m self)).
Proof.
  intros Hm Hc. unfold call.
  destruct receiver as [| | | | | |o]; try exact Hc.
  destruct (objs self !! o) as [v|] eqn:Ho; [|exact Hc].
  pose proof (Hm {| this := v; vals := session_vals self |}) as (Hoid & Hkey & _).
  simpl in *.
  assert (Hput : forall s', oid (this s') = oid v -> key (this s') = key v ->
            cache_consistent (put_back o s' self)).
  { intros s' Hoid' Hkey' k' o' Hk'. simpl in *.
    destruct (Hc k' o' Hk') as (v' & Hv' & Hkey'' & Hoid'').
    destruct (decide (o = o')) as [<-|Hne].
    - exists (this s'). rewrite list_lookup_insert_eq
        by (by eapply lookup_lt_Some). split; [reflexivity|].
      rewrite Ho in Hv'. injection Hv' as <-. split; congruence.
    - exists v'. by rewrite list_lookup_insert_ne. }
  destruct (m _) as [a s' | ex s']; simpl in *; by apply Hput.
Qed.

Lemma handler_steps_keep_consistent (opts : Opts) (self self' : session) :
  rtc (handler_step opts) self self' ->
  cache_consistent self -> cache_consistent self'.
Proof.
  induction 1 as [|self mid self' Hstep _ IH]; [done|].
  intros Hc. apply IH. destruct Hstep.
  - by apply lookup_keeps_consistent.
  - by apply call_keeps_consistent.
  - exact Hc.
Qed.

Lemma validator_from_caches (opts : Opts) (src : source) (k : string)
    (self : session) :
  exists o,
    validator_from opts src k self
    = Return (VObject o) (state_of (validator_from opts src k self)) /\
    validators (state_of (validator_from opts src k self)) !! k = Some o.
Proof.
  rewrite validator_from_unfold.
  destruct (validators self !! k) as [o|] eqn:Hk.
  - exists o. by rewrite (validator_for_cached _ _ _ o).
  - exists (List.length (objs self)). rewrite validator_for_fresh by assumption.
    simpl. split; [reflexivity | apply lookup_insert_eq].
Qed.

(** In a session, from its start and through any lookups, store writes and
    calls of methods that keep to their own entry, two lookups return the
    same Validator exactly when they ask for the same name, and the
    Validator returned for a name governs that name. *)
Theorem one_validator_per_name (opts : Opts) (r : Request) (self : session)
    (src1 src2 : source) (k1 k2 : string) :
  rtc (handler_step opts) (new_session r) self ->
  let r1 := validator_from opts src1 k1 self in
  let r2 := validator_from opts src2 k2 (state_of r1) in
  exists o1 o2 v1,
    r1 = Return (VObject o1) (state_of r1) /\
    r2 = Return (VObject o2) (state_of r2) /\
    (o1 = o2 <-> k1 = k2) /\
    objs (state_of r2) !! o1 = Some v1 /\ key v1 = k1 /\ oid v1 = o1.
Proof.
  intros Hsteps r1 r2.
  assert (Hc : cache_consistent self).
  { eapply handler_steps_keep_consistent; [exact Hsteps|].
    apply new_session_consistent. }
  destruct (validator_from_caches opts src1 k1 self) as (o1 & Hr1 & Hk1).
  destruct (validator_from_caches opts src2 k2 (state_of r1)) as (o2 & Hr2 & Hk2).
  fold r1 in Hr1, Hk1. fold r2 in Hr2, Hk2.
  assert (Hk1' : validators (state_of r2) !! k1 = Some o1).
  { eapply session_step_keeps_cache; [|exact Hk1].
    unfold r2. apply step_lookup. }
  assert (Hc2 : cache_consistent (state_of r2)).
  { unfold r2, r1. by do 2 apply lookup_keeps_consistent. }
  destruct (Hc2 k1 o1 Hk1') as (v1 & Hv1 & Hkey1 & Hoid1).
  destruct (Hc2 k2 o2 Hk2) as (v2 & Hv2 & Hkey2 & Hoid2).
  exists o1, o2, v1. split; [exact Hr1|]. split; [exact Hr2|].
  split; [|auto]. split.
  - intros <-. rewrite Hv1 in Hv2. injection Hv2 as <-. congruence.
  - intros <-. rewrite Hk1' in Hk2. by injection Hk2.
Qed.

Lemma one_validator_per_name_witness :
  let r := {| params := ∅; query := ∅;
              body := {["a" := VString "1"; "b" := VString "2"]} |} in
  let r1 := validator_from default_opts Body "a" (new_session r) in
  let r2 := validator_from default_opts Body "b" (state_of r1) in
  exists o1 o2 v1,
    r1 = Return (VObject o1) (state_of r1) /\
    r2 = Return (VObject o2) (state_of r2) /\
    (o1 = o2 <-> "a" = "b") /\
    objs (state_of r2) !! o1 = Some v1 /\ key v1 = "a" /\ oid v1 = o1.
Proof.
  intros r r1 r2.
  apply (one_validator_per_name default_opts r (new_session r) Body Body "a" "b").
  apply rtc_refl.
Defined.

(** A method that keeps to its own entry, called on the Validator the
    cache holds for a name, leaves the value of every other name as it
    was, whether the call returns or throws. *)
Theorem call_leaves_other_names (k k' : string) (o : nat) (m : M value)
    (self : session) :
  cache_consistent self ->
  validators self !! k = Some o ->
  writes_own_entry_only m ->
  k' <> k ->
  session_vals (state_of (call (VObject o) m self)) !! k' = session_vals self !! k'.
Proof.
  intros Hc Hk Hm Hne.
  destruct (Hc k o Hk) as (v & Hv & Hkey & _).
  rewrite (call_instance o v m self Hv).
  pose proof (Hm {| this := v; vals := session_vals self |}) as (_ & _ & Hvals).
  simpl in Hvals. specialize (Hvals k'). rewrite Hkey in Hvals.
  destruct (m _) as [a s' | ex s']; simpl in *; by apply Hvals.
Qed.

Lemma call_leaves_other_names_witness :
  let r := {| params := ∅; query := ∅;
              body := {["a" := VString "1"; "b" := VString "2"]} |} in
  let self :=
    state_of (validator_from default_opts Body "b"
                (state_of (validator_from default_opts Body "a" (new_session r)))) in
  session_vals (state_of (call (VObject 0) toBoolean self)) !! "b"
  = session_vals self !! "b".
Proof.
  intros r self.
  apply (call_leaves_other_names "a" "b" 0 toBoolean self).
  - unfold self. do 2 apply lookup_keeps_consistent. apply new_session_consistent.
  - reflexivity.
  - apply own_optionalFn. unfold toBoolean_fn, get_val, return_this.
    repeat first [apply own_bind; [|intros ?] | apply own_gets | apply own_set_val].
  - discriminate.
Defined.

Lemma toArray_returns_some_array (s : state) :
  skipping s = false ->
  exists items,
    toArray s = Return (this_value s) (set_val (VArray items) (set_isOptional false s)).
Proof.
  intros Hs. unfold toArray. rewrite (optionalFn_run _ s Hs).
  unfold toArray_fn. run. rewrite val_set_isOptional.
  destruct (val s); eauto.
Qed.

(** *** [toInts] wants an array *)

(** Outside the optional-skip state [toInts] on a value that is not an
    array raises the assertion error (it does not wrap the value) and
    leaves the store as it was; after [toArray] it never does: the pair
    returns or raises a ValidationError. *)
Theorem toInts_needs_an_array `{NumberToString} `{ValidatorPackage}
    (tip : value) (s : state) :
  skipping s = false ->
  (_isArray (val s) = false ->
   toInts tip s = Throw EAssertion (set_isOptional false s)) /\
  (returns (toArray;; toInts tip) s \/ raises_validation (toArray;; toInts tip) s).
Proof.
  intros Hs. split.
  - intros Hn. unfold toInts. rewrite (optionalFn_run _ s Hs).
    unfold toInts_fn. run. by rewrite val_set_isOptional, Hn.
  - destruct (toArray_returns_some_array s Hs) as (items & Hto).
    unfold returns, raises_validation, mbind, Eff_bind. rewrite Hto.
    unfold toInts. rewrite optionalFn_run by (by apply skipping_set_val).
    unfold toInts_fn. run.
    do 2 (rewrite !val_set_isOptional, !val_set_val; simpl).
    destruct (_every items v_isInt); simpl; [|unfold throwError; eauto].
    rewrite !val_set_isOptional, !val_set_val. simpl.
    destruct (_every (map parseInt items) _); simpl; [eauto|].
    unfold throwError. eauto.
Qed.

Lemma toInts_needs_an_array_witness :
  let s := validator_on "ids" false {["ids" := VString "7"]} in
  let toInts' := @toInts Sample.number_to_string Sample.validator_package in
  toInts' VUndefined s = Throw EAssertion (set_isOptional false s) /\
  (returns (toArray;; toInts' VUndefined) s \/
   raises_validation (toArray;; toInts' VUndefined) s).
Proof.
  intros s toInts'.
  destruct (@toInts_needs_an_array Sample.number_to_string Sample.validator_package
              VUndefined s) as [Hn Hpair]; [reflexivity|].
  split; [apply Hn; reflexivity | exact Hpair].
Defined.

(** *** A name that is nowhere *)


